(** * Shiksha-AI: the Gemini service layer (core/gemini_service.py)

    A shallow embedding of [GeminiService]: the three tier generators, the
    retry loop with exponential backoff, and the tolerant JSON extractor,
    followed by the properties of the specification that concern them.

    Python text is modelled as a list of Unicode code points, Python
    integers as [Z], exceptions as values of [exn], and the effects of the
    service (calls to the hosted model, [time.sleep]) as a log threaded
    through a small state-and-exception monad. *)

From Stdlib Require Import List NArith ZArith String Ascii Bool Lia.
Import ListNotations.

Set Implicit Arguments.

(* ===================================================================== *)
(** * Python strings *)
(* ===================================================================== *)

Module Py.

(** A [str] is a sequence of code points. *)
Definition str := list N.

(** An ASCII literal of the source, as a [str]. *)
Definition lit (s : string) : str :=
  List.map N_of_ascii (list_ascii_of_string s).

Definition eqb (a b : str) : bool :=
  if list_eq_dec N.eq_dec a b then true else false.

(** [str.isspace] on one code point: the characters [str.strip()]
    removes when called without argument. *)
Definition isspace (c : N) : bool :=
  ((9 <=? c) && (c <=? 13)           (* \t \n \v \f \r *)
   || (28 <=? c) && (c <=? 32)       (* FS GS RS US and the space *)
   || (c =? 133) || (c =? 160)       (* NEL, no-break space *)
   || (c =? 5760)
   || (8192 <=? c) && (c <=? 8202)
   || (c =? 8232) || (c =? 8233) || (c =? 8239) || (c =? 8287)
   || (c =? 12288))%N.

Fixpoint lstrip (s : str) : str :=
  match s with
  | [] => []
  | c :: r => if isspace c then lstrip r else s
  end.

Definition rstrip (s : str) : str := rev (lstrip (rev s)).

(** [s.strip()] *)
Definition strip (s : str) : str := rstrip (lstrip s).

(** [s.startswith(p)] *)
Fixpoint startswith (s p : str) {struct p} : bool :=
  match p, s with
  | [], _ => true
  | _ :: _, [] => false
  | a :: p', b :: s' => (a =? b)%N && startswith s' p'
  end.

(** [s.endswith(p)] *)
Definition endswith (s p : str) : bool := startswith (rev s) (rev p).

(** [s[n:]] for a literal [n >= 0] *)
Definition slice_from (n : nat) (s : str) : str := skipn n s.

(** [s[:-n]] for a literal [n > 0]: the stop index is [len(s) - n],
    clipped at 0. *)
Definition slice_to_neg (n : nat) (s : str) : str :=
  firstn (List.length s - n) s.

(** [s[i:j]] for [0 <= i], [0 <= j] *)
Definition slice (i j : nat) (s : str) : str := firstn (j - i) (skipn i s).

(** [s.find(c)] for a single character: the index of its first
    occurrence, if any. *)
Fixpoint find (c : N) (s : str) : option nat :=
  match s with
  | [] => None
  | x :: r => if (x =? c)%N then Some 0
              else match find c r with Some i => Some (S i) | None => None end
  end.

(** [s.rfind(c)] for a single character: the index of its last
    occurrence, if any. *)
Fixpoint rfind (c : N) (s : str) : option nat :=
  match s with
  | [] => None
  | x :: r => match rfind c r with
              | Some i => Some (S i)
              | None => if (x =? c)%N then Some 0 else None
              end
  end.

(** The decimal digits of a number, most significant first. *)
Fixpoint digits_of_uint (d : Decimal.uint) : str :=
  match d with
  | Decimal.Nil => []
  | Decimal.D0 d => 48%N :: digits_of_uint d
  | Decimal.D1 d => 49%N :: digits_of_uint d
  | Decimal.D2 d => 50%N :: digits_of_uint d
  | Decimal.D3 d => 51%N :: digits_of_uint d
  | Decimal.D4 d => 52%N :: digits_of_uint d
  | Decimal.D5 d => 53%N :: digits_of_uint d
  | Decimal.D6 d => 54%N :: digits_of_uint d
  | Decimal.D7 d => 55%N :: digits_of_uint d
  | Decimal.D8 d => 56%N :: digits_of_uint d
  | Decimal.D9 d => 57%N :: digits_of_uint d
  end.

(** [str(n)] for a natural number. *)
Definition str_of_nat (n : nat) : str := digits_of_uint (Nat.to_uint n).

End Py.

Notation "'py' s" := (Py.lit s) (at level 9, s at level 0, only parsing).

(* ===================================================================== *)
(** * Exceptions and results *)
(* ===================================================================== *)

(** The instances of [Exception] that occur: the two classes the service
    constructs itself, the decoder's [json.JSONDecodeError] (its message
    and position are not modelled), and whatever the hosted model raises,
    kept as class name and message.  The hosted model may itself raise a
    [ValueError] or a [RuntimeError].  [RecursionError], a subclass of
    [RuntimeError], is what the interpreter raises when calls nest too
    deep.  Exceptions outside [Exception] ([KeyboardInterrupt],
    [SystemExit]), which [except Exception] lets through, are not part of
    the model. *)
Inductive exn : Type :=
| ValueError (msg : Py.str)
| RuntimeError (msg : Py.str)
| RecursionError (msg : Py.str)
| JSONDecodeError
| OtherError (cls msg : Py.str).

(** [json.JSONDecodeError] is a subclass of [ValueError]. *)
Definition isinstance_ValueError (e : exn) : bool :=
  match e with
  | ValueError _ | JSONDecodeError => true
  | _ => false
  end.

Inductive outcome (A : Type) : Type :=
| Return (a : A)
| Raise (e : exn).
Arguments Return {A} a.
Arguments Raise {A} e.

(* ===================================================================== *)
(** * The generators and the retry loop *)
(* ===================================================================== *)

Section Service.

(** The keyword arguments forwarded to the hosted model. *)
Variable Options : Type.

(** [django.conf.settings], as far as the service reads it. *)
Record Settings : Type := {
  GEMINI_MODEL_LITE : Py.str;
  GEMINI_MODEL_FLASH : Py.str;
  GEMINI_MODEL_PRO : Py.str
}.

(** What [model.generate_content] returns: an object with a truth value
    and a [text] attribute. *)
Record Response : Type := {
  truthy : bool;
  text : Py.str
}.

(** What the service does to the outside world, in order. *)
Inductive event : Type :=
| Call (model prompt : Py.str) (kwargs : Options)
| Sleep (seconds : Z).

Definition is_call (ev : event) : bool :=
  match ev with Call _ _ _ => true | Sleep _ => false end.

(** Number of calls to the hosted model in a log. *)
Definition calls (log : list event) : nat :=
  List.length (filter is_call log).

(** The delays of a log, in order. *)
Fixpoint sleeps (log : list event) : list Z :=
  match log with
  | [] => []
  | Sleep t :: log' => t :: sleeps log'
  | Call _ _ _ :: log' => sleeps log'
  end.

Variable settings : Settings.

(** The hosted model: the outcome of the [i]-th call made to it (counted
    from 0) with the given model identifier, prompt and options. *)
Variable backend : nat -> Py.str -> Py.str -> Options -> outcome Response.

(** Computations of the service: they read and extend the log and end
    with a value or an exception. *)
Definition M (A : Type) : Type := list event -> outcome A * list event.

Definition ret {A} (a : A) : M A := fun log => (Return a, log).

Definition raise {A} (e : exn) : M A := fun log => (Raise e, log).

Definition bind {A B} (m : M A) (k : A -> M B) : M B :=
  fun log =>
    match m log with
    | (Return a, log') => k a log'
    | (Raise e, log') => (Raise e, log')
    end.

(** [try: m  except Exception as e: h e] *)
Definition try_except {A} (m : M A) (h : exn -> M A) : M A :=
  fun log =>
    match m log with
    | (Return a, log') => (Return a, log')
    | (Raise e, log') => h e log'
    end.

Notation "x <- m ;; k" := (bind m (fun x => k))
  (at level 61, m at next level, right associativity).
Notation "m ;; k" := (bind m (fun _ => k))
  (at level 61, right associativity).

(** [genai.GenerativeModel(model).generate_content(prompt, **kwargs)] *)
Definition generate_content (model prompt : Py.str) (kwargs : Options)
  : M Response :=
  fun log => (backend (calls log) model prompt kwargs,
              log ++ [Call model prompt kwargs]).

(** [time.sleep(seconds)] *)
Definition time_sleep (seconds : Z) : M unit :=
  fun log => (Return tt, log ++ [Sleep seconds]).

(** [response.text if response else None] *)
Definition text_or_none (response : Response) : option Py.str :=
  if truthy response then Some (text response) else None.

Definition generate_with_lite (prompt : Py.str) (kwargs : Options)
  : M (option Py.str) :=
  response <- generate_content (GEMINI_MODEL_LITE settings) prompt kwargs ;;
  ret (text_or_none response).

Definition generate_with_flash (prompt : Py.str) (kwargs : Options)
  : M (option Py.str) :=
  response <- generate_content (GEMINI_MODEL_FLASH settings) prompt kwargs ;;
  ret (text_or_none response).

Definition generate_with_pro (prompt : Py.str) (kwargs : Options)
  : M (option Py.str) :=
  response <- generate_content (GEMINI_MODEL_PRO settings) prompt kwargs ;;
  ret (text_or_none response).

(** [range(n)] *)
Definition range (n : Z) : list Z :=
  List.map Z.of_nat (seq 0 (Z.to_nat n)).

(** The body of the [try] statement of [generate_with_retry]. *)
Definition dispatch (prompt model_type : Py.str) (kwargs : Options)
  : M (option Py.str) :=
  if Py.eqb model_type (py "lite") then generate_with_lite prompt kwargs
  else if Py.eqb model_type (py "flash") then generate_with_flash prompt kwargs
  else if Py.eqb model_type (py "pro") then generate_with_pro prompt kwargs
  else raise (ValueError (py "Invalid model_type: " ++ model_type)).

(** The [for attempt in ...] loop over the attempts still to run,
    followed by the statement after the loop. *)
Fixpoint retry_loop (prompt model_type : Py.str) (max_retries : Z)
         (kwargs : Options) (attempts : list Z) : M (option Py.str) :=
  match attempts with
  | [] => raise (RuntimeError (py "Failed after maximum retries"))
  | attempt :: rest =>
      try_except
        (dispatch prompt model_type kwargs)
        (fun e =>
           if (attempt =? max_retries - 1)%Z then raise e
           else
             let wait_time := (2 ^ attempt)%Z in
             time_sleep wait_time ;;
             retry_loop prompt model_type max_retries kwargs rest)
  end.

Definition generate_with_retry (prompt model_type : Py.str)
           (max_retries : Z) (kwargs : Options) : M (option Py.str) :=
  retry_loop prompt model_type max_retries kwargs (range max_retries).

(** A call of a method of a fresh service: the log starts empty. *)
Definition run {A} (m : M A) : outcome A * list event := m [].

End Service.

Arguments Call {Options} model prompt kwargs.
Arguments Sleep {Options} seconds.

(* ===================================================================== *)
(** * The [json] module of the standard library, as far as
      [json.loads] on a [str] goes

    The decoder with its default settings: strict strings, the constants
    [NaN], [Infinity] and [-Infinity] accepted, duplicate keys resolved as
    [dict] does.  Besides [json.JSONDecodeError] for a syntax error it
    raises the two errors of the interpreter's limits: [RecursionError]
    when objects and arrays nest deeper than the interpreter admits, and
    the [ValueError] of [int] for an integer literal with more digits
    than [sys.get_int_max_str_digits()]. *)
(* ===================================================================== *)

Module JSON.

(** What [json.loads] builds: [None], [bool], [int], [float], [str],
    [list] and [dict].  A float is kept as the literal that denotes it;
    a dict as its items in insertion order, keys distinct. *)
#[warnings="-register-all"]
Inductive value : Type :=
| JNone
| JBool (b : bool)
| JInt (n : Z)
| JFloat (literal : Py.str)
| JStr (s : Py.str)
| JList (items : list value)
| JDict (items : list (Py.str * value)).

Definition is_dict (v : value) : bool :=
  match v with JDict _ => true | _ => false end.

(** [d[k] = v] on the items of a dict. *)
Fixpoint dict_set {V} (d : list (Py.str * V)) (k : Py.str) (v : V)
  : list (Py.str * V) :=
  match d with
  | [] => [(k, v)]
  | (k', v') :: d' =>
      if Py.eqb k k' then (k', v) :: d' else (k', v') :: dict_set d' k v
  end.

(** [dict(pairs)] *)
Definition dict {V} (pairs : list (Py.str * V)) : list (Py.str * V) :=
  fold_left (fun d kv => dict_set d (fst kv) (snd kv)) pairs [].

(** The limits of the interpreter that the decoder runs into: how many
    objects and arrays may be open inside one another when [json.loads]
    is called, which depends on the recursion limit and on how deep the
    caller already is, and the longest integer literal [int] converts
    (0 for no limit; the interpreter accepts 0 or a value from 640 on). *)
Record limits : Type := {
  recursion_limit : nat;
  int_max_str_digits : nat
}.

(** The limits of an interpreter with its default settings, called from
    the top of the stack. *)
Definition default_limits : limits :=
  {| recursion_limit := 1000; int_max_str_digits := 4300 |}.

(** The outcome of a scanner on a suffix of the document: a value and
    the text after it, a syntax error, an error that is not a syntax
    error, or not enough fuel. *)
Inductive scan (A : Type) : Type :=
| Ok (a : A) (rest : Py.str)
| Fail
| Abort (e : exn)
| OutOfFuel.
Arguments Ok {A} a rest.
Arguments Fail {A}.
Arguments Abort {A} e.
Arguments OutOfFuel {A}.

(** The decoder's whitespace: space, tab, line feed, carriage return. *)
Definition is_ws (c : N) : bool :=
  ((c =? 32) || (c =? 9) || (c =? 10) || (c =? 13))%N.

Fixpoint skip_ws (s : Py.str) : Py.str :=
  match s with
  | [] => []
  | c :: r => if is_ws c then skip_ws r else s
  end.

Definition isdigit (c : N) : bool := ((48 <=? c) && (c <=? 57))%N.

(** The longest run of ASCII digits at the start, and what follows. *)
Fixpoint span_digits (s : Py.str) : Py.str * Py.str :=
  match s with
  | [] => ([], [])
  | c :: r =>
      if isdigit c
      then let (d, r') := span_digits r in (c :: d, r')
      else ([], s)
  end.

(** Value of a run of decimal digits. *)
Definition int_of_digits (d : Py.str) : Z :=
  fold_left (fun acc c => 10 * acc + (Z.of_N c - 48))%Z d 0%Z.

(** [int(literal)] for a literal matched by [match_integer]. *)
Definition int_of_literal (l : Py.str) : Z :=
  match l with
  | c :: d => if (c =? 45)%N then (- int_of_digits d)%Z else int_of_digits l
  | [] => 0%Z
  end.

(** The integer part of a number at the start of the text: an
    optional minus sign, then either 0 or a nonzero digit and any digits. *)
Definition match_integer (s : Py.str) : option (Py.str * Py.str) :=
  let (sign, s1) :=
    match s with
    | c :: r => if (c =? 45)%N then ([c], r) else ([], s)
    | [] => ([], s)
    end in
  match s1 with
  | [] => None
  | c :: r =>
      if (c =? 48)%N then Some (sign ++ [c], r)
      else if isdigit c
           then let (d, r') := span_digits r in Some (sign ++ c :: d, r')
           else None
  end.

(** [(\.[0-9]+)?] *)
Definition match_frac (s : Py.str) : Py.str * Py.str :=
  match s with
  | c :: r =>
      if (c =? 46)%N
      then match span_digits r with
           | ([], _) => ([], s)
           | (d, r') => (c :: d, r')
           end
      else ([], s)
  | [] => ([], s)
  end.

(** [([eE][-+]?[0-9]+)?] *)
Definition match_exp (s : Py.str) : Py.str * Py.str :=
  match s with
  | c :: r =>
      if ((c =? 101) || (c =? 69))%N
      then
        let (sign, r1) :=
          match r with
          | x :: r' => if ((x =? 45) || (x =? 43))%N then ([x], r') else ([], r)
          | [] => ([], r)
          end in
        match span_digits r1 with
        | ([], _) => ([], s)
        | (d, r') => (c :: sign ++ d, r')
        end
      else ([], s)
  | [] => ([], s)
  end.

(** The message of [int] for a literal of [digits] digits under a limit
    of [limit]. *)
Definition int_limit_message (limit digits : nat) : Py.str :=
  py "Exceeds the limit (" ++ Py.str_of_nat limit
  ++ py " digits) for integer string conversion: value has "
  ++ Py.str_of_nat digits
  ++ py " digits; use sys.set_int_max_str_digits() to increase the limit".

(** [int(literal)] as the decoder calls it: a literal with more digits
    than the limit is refused with a [ValueError]. *)
Definition parse_int (lim : limits) (literal : Py.str) : outcome value :=
  let digits := List.length (filter isdigit literal) in
  if (0 <? int_max_str_digits lim) && (int_max_str_digits lim <? digits)
  then Raise (ValueError (int_limit_message (int_max_str_digits lim) digits))
  else Return (JInt (int_of_literal literal)).

(** The scanner's number rule: an [int] when neither fraction nor
    exponent is present, a [float] otherwise. *)
Definition match_number (lim : limits) (s : Py.str)
  : option (outcome value * Py.str) :=
  match match_integer s with
  | None => None
  | Some (integer, r) =>
      let (frac, r1) := match_frac r in
      let (exp, r2) := match_exp r1 in
      match frac ++ exp with
      | [] => Some (parse_int lim integer, r2)
      | _ => Some (Return (JFloat (integer ++ frac ++ exp)), r2)
      end
  end.

Definition hex_digit (c : N) : option N :=
  (if (48 <=? c) && (c <=? 57) then Some (c - 48)
   else if (97 <=? c) && (c <=? 102) then Some (c - 87)
   else if (65 <=? c) && (c <=? 70) then Some (c - 55)
   else None)%N.

(** The four hexadecimal digits of a [\uXXXX] escape. *)
Definition decode_uXXXX (s : Py.str) : option (N * Py.str) :=
  match s with
  | a :: b :: c :: d :: r =>
      match hex_digit a, hex_digit b, hex_digit c, hex_digit d with
      | Some x, Some y, Some z, Some w =>
          Some (((x * 16 + y) * 16 + z) * 16 + w, r)%N
      | _, _, _, _ => None
      end
  | _ => None
  end.

(** The character a one-letter escape stands for. *)
Definition backslash (c : N) : option N :=
  (if c =? 34 then Some 34          (* quotation mark *)
   else if c =? 92 then Some 92     (* reverse solidus *)
   else if c =? 47 then Some 47     (* solidus *)
   else if c =? 98 then Some 8      (* \b *)
   else if c =? 102 then Some 12    (* \f *)
   else if c =? 110 then Some 10    (* \n *)
   else if c =? 114 then Some 13    (* \r *)
   else if c =? 116 then Some 9     (* \t *)
   else None)%N.

(** After a [\uXXXX] escape with value [uni] and rest [r]: a high
    surrogate followed by the escape of a low surrogate is one character
    outside the basic plane; anything else stands for itself. *)
Definition join_surrogates (uni : N) (r : Py.str) : N * Py.str :=
  if ((55296 <=? uni) && (uni <=? 56319))%N
  then
    match r with
    | b :: u :: r' =>
        if ((b =? 92) && (u =? 117))%N
        then
          match decode_uXXXX r' with
          | Some (uni2, r'') =>
              if ((56320 <=? uni2) && (uni2 <=? 57343))%N
              then (65536 + ((uni - 55296) * 1024 + (uni2 - 56320)), r'')%N
              else (uni, r)
          | None => (uni, r)
          end
        else (uni, r)
    | _ => (uni, r)
    end
  else (uni, r).

(** One character of a string literal, at [c :: r]: the character it
    denotes and the text after it.  Control characters are refused
    (strict mode). *)
Definition string_char (c : N) (r : Py.str) : option (N * Py.str) :=
  if (c <? 32)%N then None
  else if (c =? 92)%N then
    match r with
    | [] => None
    | e :: r1 =>
        if (e =? 117)%N then
          match decode_uXXXX r1 with
          | None => None
          | Some (uni, r2) => Some (join_surrogates uni r2)
          end
        else
          match backslash e with
          | None => None
          | Some char => Some (char, r1)
          end
    end
  else Some (c, r).

(** [scanstring] in strict mode, from just after the opening quote:
    the decoded string and the text after the closing quote. *)
Fixpoint scanstring (fuel : nat) (s : Py.str) : scan Py.str :=
  match fuel with
  | 0 => OutOfFuel
  | S fuel =>
      match s with
      | [] => Fail                                   (* unterminated *)
      | c :: r =>
          if (c =? 34)%N then Ok [] r
          else
            match string_char c r with
            | None => Fail
            | Some (char, r') =>
                match scanstring fuel r' with
                | Ok k rest => Ok (char :: k) rest
                | other => other
                end
            end
      end
  end.

(** [s] starts with the literal [p]: what follows it. *)
Definition after (p s : Py.str) : option Py.str :=
  if Py.startswith s p then Some (skipn (List.length p) s) else None.


(** The error of entering one object or array too many. *)
Definition too_deep (what : string) : exn :=
  RecursionError (py "maximum recursion depth exceeded while decoding a JSON "
                  ++ py what ++ py " from a unicode string").

(** The scanner ([scan_once]) with the loops of [JSONObject] and
    [JSONArray].  [members] starts just after the opening quote of a
    key, [elements] at the start of an element.  [depth] is the number of
    objects and arrays that may still be opened inside one another. *)
Fixpoint scan_once (lim : limits) (fuel depth : nat) (s : Py.str)
  : scan value :=
  match fuel with
  | 0 => OutOfFuel
  | S fuel =>
      match s with
      | [] => Fail
      | c :: r =>
          if (c =? 34)%N then
            match scanstring fuel r with
            | Ok k rest => Ok (JStr k) rest
            | Fail => Fail
            | Abort e => Abort e
            | OutOfFuel => OutOfFuel
            end
          else if (c =? 123)%N then               (* { *)
            match depth with
            | 0 => Abort (too_deep "object")
            | S depth =>
                match skip_ws r with
                | x :: r1 =>
                    if (x =? 125)%N then Ok (JDict []) r1
                    else if (x =? 34)%N then
                      match members lim fuel depth r1 with
                      | Ok pairs rest => Ok (JDict (dict pairs)) rest
                      | Fail => Fail
                      | Abort e => Abort e
                      | OutOfFuel => OutOfFuel
                      end
                    else Fail
                | [] => Fail
                end
            end
          else if (c =? 91)%N then                (* [ *)
            match depth with
            | 0 => Abort (too_deep "array")
            | S depth =>
                match skip_ws r with
                | x :: r1 =>
                    if (x =? 93)%N then Ok (JList []) r1
                    else
                      match elements lim fuel depth (x :: r1) with
                      | Ok values rest => Ok (JList values) rest
                      | Fail => Fail
                      | Abort e => Abort e
                      | OutOfFuel => OutOfFuel
                      end
                | [] => Fail
                end
            end
          else
            match after (py "null") s, after (py "true") s,
                  after (py "false") s with
            | Some rest, _, _ => Ok JNone rest
            | _, Some rest, _ => Ok (JBool true) rest
            | _, _, Some rest => Ok (JBool false) rest
            | None, None, None =>
                match match_number lim s with
                | Some (Return v, rest) => Ok v rest
                | Some (Raise e, _) => Abort e
                | None =>
                    match after (py "NaN") s, after (py "Infinity") s,
                          after (py "-Infinity") s with
                    | Some rest, _, _ => Ok (JFloat (py "NaN")) rest
                    | _, Some rest, _ => Ok (JFloat (py "Infinity")) rest
                    | _, _, Some rest => Ok (JFloat (py "-Infinity")) rest
                    | None, None, None => Fail
                    end
                end
            end
      end
  end

with members (lim : limits) (fuel depth : nat) (s : Py.str)
  : scan (list (Py.str * value)) :=
  match fuel with
  | 0 => OutOfFuel
  | S fuel =>
      match scanstring fuel s with
      | Ok key r =>
          match skip_ws r with
          | x :: r1 =>
              if (x =? 58)%N then                  (* : *)
                match scan_once lim fuel depth (skip_ws r1) with
                | Ok v r2 =>
                    match skip_ws r2 with
                    | y :: r3 =>
                        if (y =? 125)%N then Ok [(key, v)] r3
                        else if (y =? 44)%N then   (* , *)
                          match skip_ws r3 with
                          | q :: r4 =>
                              if (q =? 34)%N then
                                match members lim fuel depth r4 with
                                | Ok more rest => Ok ((key, v) :: more) rest
                                | other => other
                                end
                              else Fail
                          | [] => Fail
                          end
                        else Fail
                    | [] => Fail
                    end
                | Fail => Fail
                | Abort e => Abort e
                | OutOfFuel => OutOfFuel
                end
              else Fail
          | [] => Fail
          end
      | Fail => Fail
      | Abort e => Abort e
      | OutOfFuel => OutOfFuel
      end
  end

with elements (lim : limits) (fuel depth : nat) (s : Py.str)
  : scan (list value) :=
  match fuel with
  | 0 => OutOfFuel
  | S fuel =>
      match scan_once lim fuel depth s with
      | Ok v r =>
          match skip_ws r with
          | y :: r1 =>
              if (y =? 93)%N then Ok [v] r1
              else if (y =? 44)%N then
                match elements lim fuel depth (skip_ws r1) with
                | Ok more rest => Ok (v :: more) rest
                | other => other
                end
              else Fail
          | [] => Fail
          end
      | Fail => Fail
      | Abort e => Abort e
      | OutOfFuel => OutOfFuel
      end
  end.

(** Fuel that is enough for a text (see [scan_once_fuel]). *)
Definition fuel_for (s : Py.str) : nat := S (2 * List.length s).

(** [json.loads(s)]: one value between optional whitespace, and nothing
    else.  A syntax error is a [json.JSONDecodeError]; the errors of the
    interpreter's limits come out as they are. *)
Definition loads (lim : limits) (s : Py.str) : outcome value :=
  match scan_once lim (fuel_for s) (recursion_limit lim) (skip_ws s) with
  | Ok v rest =>
      match skip_ws rest with
      | [] => Return v
      | _ :: _ => Raise JSONDecodeError              (* extra data *)
      end
  | Abort e => Raise e
  | _ => Raise JSONDecodeError
  end.

End JSON.

(* ===================================================================== *)
(** * The regular expression of the fallback *)
(* ===================================================================== *)

Module Re.

Definition lbrace : N := 123.
Definition rbrace : N := 125.

(** The tail [.*\}] of the pattern under [re.DOTALL], matched at the
    start of [s]: the dot takes any character, and the star is greedy,
    so a longer match is preferred to a shorter one.  The result is the
    matched text. *)
Fixpoint match_dotstar_rbrace (s : Py.str) : option Py.str :=
  match s with
  | [] => None
  | c :: r =>
      match match_dotstar_rbrace r with
      | Some m => Some (c :: m)                  (* the dot takes [c] *)
      | None => if (c =? rbrace)%N then Some [c] else None
      end
  end.

(** [re.search(r"\{.*\}", s, re.DOTALL)]: the match at the leftmost
    position where the pattern matches; [.group()] of the match. *)
Fixpoint search (s : Py.str) : option Py.str :=
  match s with
  | [] => None
  | c :: r =>
      if (c =? lbrace)%N
      then match match_dotstar_rbrace r with
           | Some m => Some (c :: m)
           | None => search r
           end
      else search r
  end.

End Re.

(* ===================================================================== *)
(** * The JSON extractor *)
(* ===================================================================== *)

(** [not response_text], for an argument that is a [str] or [None]. *)
Definition falsy (response_text : option Py.str) : bool :=
  match response_text with
  | None | Some [] => true
  | Some (_ :: _) => false
  end.

(** The text handed to the decoder: stripped, without its code fences,
    stripped again. *)
Definition unfence (response_text : Py.str) : Py.str :=
  let text := Py.strip response_text in
  let text :=
    if Py.startswith text (py "```json") then Py.slice_from 7 text
    else if Py.startswith text (py "```") then Py.slice_from 3 text
    else text in
  let text :=
    if Py.endswith text (py "```") then Py.slice_to_neg 3 text else text in
  Py.strip text.

(** The extractor, run by an interpreter with the limits [lim]. *)
Definition parse_json_response (lim : JSON.limits)
           (response_text : option Py.str) : outcome JSON.value :=
  if falsy response_text then Raise (ValueError (py "Empty response text"))
  else
    let response_text :=
      match response_text with Some t => t | None => [] end in
    let text := unfence response_text in
    match JSON.loads lim text with
    | Return v => Return v
    | Raise JSONDecodeError =>
        match Re.search text with
        | Some json_match => JSON.loads lim json_match
        | None =>
            Raise (ValueError (py "Could not parse JSON from Gemini response"))
        end
    | Raise e => Raise e
    end.

(* ===================================================================== *)
(** * Vocabulary of the specification *)
(* ===================================================================== *)

(** A literal in which the apostrophe stands for the quotation mark. *)
Definition pyq (s : string) : Py.str :=
  List.map (fun c => if (c =? 39)%N then 34%N else c) (py s).

(** The widest brace-delimited span of a text: from its first opening
    brace to its last closing brace, when the one comes before the
    other. *)
Definition widest_brace_span (s : Py.str) : option Py.str :=
  match Py.find Re.lbrace s, Py.rfind Re.rbrace s with
  | Some i, Some j => if i <? j then Some (Py.slice i (S j) s) else None
  | _, _ => None
  end.

(** All characters of a text are whitespace for [str.strip]. *)
Definition all_space (s : Py.str) : bool := forallb Py.isspace s.

(** The two opening fences. *)
Definition is_fence (f : Py.str) : Prop := f = py "```json" \/ f = py "```".

Section ServiceVocabulary.

Variable Options : Type.
Variable settings : Settings.

(** The model identifier a recognised tier is served by. *)
Definition tier_model (model_type : Py.str) : option Py.str :=
  if Py.eqb model_type (py "lite") then Some (GEMINI_MODEL_LITE settings)
  else if Py.eqb model_type (py "flash") then Some (GEMINI_MODEL_FLASH settings)
  else if Py.eqb model_type (py "pro") then Some (GEMINI_MODEL_PRO settings)
  else None.

(** The attempts [a], [a+1], ..., [a+n-1] of the loop. *)
Definition attempts_from (a n : nat) : list Z :=
  List.map Z.of_nat (seq a n).

(** Delays [2^a], [2^(a+1)], ..., [2^(a+k-1)]. *)
Definition backoff (a k : nat) : list Z :=
  List.map (fun i => 2 ^ Z.of_nat i)%Z (seq a k).

(** [k] failed attempts starting with attempt [a]: each is a call
    followed by its delay. *)
Definition failed_attempts (model prompt : Py.str) (kwargs : Options)
           (a k : nat) : list (event Options) :=
  flat_map (fun i => [Call model prompt kwargs; Sleep (2 ^ Z.of_nat i)%Z])
           (seq a k).

(** The delays alone, as a log. *)
Definition delays (a k : nat) : list (event Options) :=
  List.map (fun t => Sleep t) (backoff a k).

End ServiceVocabulary.

(* ===================================================================== *)
(** * Sample inputs *)
(* ===================================================================== *)

Definition sample_settings : Settings :=
  {| GEMINI_MODEL_LITE := py "gemini-2.0-flash-lite";
     GEMINI_MODEL_FLASH := py "gemini-2.0-flash";
     GEMINI_MODEL_PRO := py "gemini-1.5-pro" |}.

(** The error of the hosted model at its [i]-th call, numbered so that
    the errors of different calls differ. *)
Definition unavailable (i : nat) : exn :=
  OtherError (py "ServiceUnavailable") (py "503 at call " ++ [48 + N.of_nat i]%N).

(** A hosted model that fails on its first [n] calls and answers from
    then on. *)
Definition flaky (n : nat) : nat -> Py.str -> Py.str -> unit -> outcome Response :=
  fun i _ _ _ =>
    if i <? n then Raise (unavailable i)
    else Return {| truthy := true; text := py " done " |}.

(** A hosted model that fails on every call. *)
Definition down : nat -> Py.str -> Py.str -> unit -> outcome Response :=
  fun i _ _ _ => Raise (unavailable i).

(** An object behind two thousand opening brackets. *)
Definition deep_example : Py.str := repeat 91%N 2000 ++ pyq "{'a': 1}".

(** The example of the specification with prose around the object; the
    dash is U+2014. *)
Definition prose_example : Py.str :=
  pyq "Here is your answer: {'ok': true} " ++ [8212%N] ++ py " hope that helps".

(* ===================================================================== *)
(** * Further vocabulary *)
(* ===================================================================== *)

(** The time a log spends sleeping. *)
Definition total_delay {Options : Type} (log : list (event Options)) : Z :=
  fold_right Z.add 0%Z (sleeps log).

(** An opening fence, or none. *)
Definition is_opening (f : Py.str) : Prop :=
  f = [] \/ f = py "```json" \/ f = py "```".

(** A closing fence, or none. *)
Definition is_closing (f : Py.str) : Prop := f = [] \/ f = py "```".

(** A text without the character [c]. *)
Definition lacks (c : N) (s : Py.str) : bool :=
  forallb (fun x => negb (x =? c)%N) s.

(** Every call of a log is the given one. *)
Definition calls_are {Options : Type} (model prompt : Py.str)
           (kwargs : Options) (log : list (event Options)) : Prop :=
  Forall (fun ev => is_call ev = true -> ev = Call model prompt kwargs) log.

(* ===================================================================== *)
(** * Facts about strings *)
(* ===================================================================== *)

Lemma Py_eqb_eq (a b : Py.str) : Py.eqb a b = true <-> a = b.
Proof.
  unfold Py.eqb; destruct (list_eq_dec N.eq_dec a b); split; congruence.
Qed.
(* ===================================================================== *)
(** * Properties of the generators and of the retry loop *)
(* ===================================================================== *)

Section ServiceFacts.

Variable Options : Type.
Variable settings : Settings.
Variable backend : nat -> Py.str -> Py.str -> Options -> outcome Response.



Lemma calls_app (l1 l2 : list (event Options)) :
  calls (l1 ++ l2) = calls l1 + calls l2.
Proof. unfold calls. now rewrite filter_app, length_app. Qed.

Lemma sleeps_app (l1 l2 : list (event Options)) :
  sleeps (l1 ++ l2) = sleeps l1 ++ sleeps l2.
Proof.
  induction l1 as [|[m p kw|t] l1 IH]; simpl; [reflexivity|exact IH|].
  now rewrite IH.
Qed.

Lemma calls_failed_attempts model prompt (kwargs : Options) a k :
  calls (failed_attempts model prompt kwargs a k) = k.
Proof.
  revert a; induction k as [|k IH]; intro a; [reflexivity|].
  unfold failed_attempts in *; simpl. unfold calls in *; simpl.
  now rewrite IH.
Qed.

Lemma sleeps_failed_attempts model prompt (kwargs : Options) a k :
  sleeps (failed_attempts model prompt kwargs a k) = backoff a k.
Proof.
  revert a; induction k as [|k IH]; intro a; [reflexivity|].
  unfold failed_attempts, backoff in *; simpl. now rewrite IH.
Qed.

Lemma calls_delays a k : calls (delays Options a k) = 0.
Proof.
  unfold delays. induction (backoff a k) as [|t l IH]; [reflexivity|exact IH].
Qed.

Lemma sleeps_delays a k : sleeps (delays Options a k) = backoff a k.
Proof.
  unfold delays. induction (backoff a k) as [|t l IH]; [reflexivity|].
  simpl. now rewrite IH.
Qed.

Lemma range_attempts (n : Z) : range n = attempts_from 0 (Z.to_nat n).
Proof. reflexivity. Qed.

(** On a recognised tier the body of the [try] is one call to the
    hosted model. *)
Lemma dispatch_valid prompt model_type model kwargs log :
  tier_model settings model_type = Some model ->
  dispatch settings backend prompt model_type kwargs log =
    (match backend (calls log) model prompt kwargs with
     | Return r => Return (text_or_none r)
     | Raise e => Raise e
     end, log ++ [Call model prompt kwargs]).
Proof.
  unfold tier_model, dispatch.
  destruct (Py.eqb model_type (py "lite")).
  { intros [= <-]. unfold generate_with_lite, bind, generate_content, ret.
    now destruct (backend _ _ _ _). }
  destruct (Py.eqb model_type (py "flash")).
  { intros [= <-]. unfold generate_with_flash, bind, generate_content, ret.
    now destruct (backend _ _ _ _). }
  destruct (Py.eqb model_type (py "pro")); [|discriminate].
  intros [= <-]. unfold generate_with_pro, bind, generate_content, ret.
  now destruct (backend _ _ _ _).
Qed.

(** On any other tier it raises without touching the hosted model. *)
Lemma dispatch_invalid prompt model_type kwargs log :
  tier_model settings model_type = None ->
  dispatch settings backend prompt model_type kwargs log =
    (Raise (ValueError (py "Invalid model_type: " ++ model_type)), log).
Proof.
  unfold tier_model, dispatch.
  destruct (Py.eqb model_type (py "lite")); [discriminate|].
  destruct (Py.eqb model_type (py "flash")); [discriminate|].
  destruct (Py.eqb model_type (py "pro")); [discriminate|].
  reflexivity.
Qed.

(** Failed attempts that are not the last permitted one are slept
    through: the loop goes on with the remaining attempts. *)
Lemma retry_loop_skips_failures prompt model_type model max_retries kwargs :
  tier_model settings model_type = Some model ->
  forall k a n log,
    (forall i, i < k ->
               exists e, backend (calls log + i) model prompt kwargs = Raise e) ->
    (Z.of_nat (a + k) < max_retries)%Z ->
    retry_loop settings backend prompt model_type max_retries kwargs
               (attempts_from a (k + n)) log =
    retry_loop settings backend prompt model_type max_retries kwargs
               (attempts_from (a + k) n)
               (log ++ failed_attempts model prompt kwargs a k).
Proof.
  intros Htier. induction k as [|k IH]; intros a n log Hfail Hlt.
  - simpl. now rewrite Nat.add_0_r, app_nil_r.
  - change (attempts_from a (S k + n))
      with (Z.of_nat a :: attempts_from (S a) (k + n)).
    cbn [retry_loop]. unfold try_except at 1.
    rewrite dispatch_valid with (model := model) by exact Htier.
    destruct (Hfail 0 ltac:(lia)) as [e He].
    rewrite Nat.add_0_r in He. rewrite He.
    replace (Z.of_nat a =? max_retries - 1)%Z with false
      by (symmetry; apply Z.eqb_neq; lia).
    unfold bind at 1, time_sleep at 1.
    rewrite IH.
    + replace (S a + k) with (a + S k) by lia.
      f_equal. unfold failed_attempts. simpl.
      now rewrite <- !app_assoc.
    + intros i Hi. destruct (Hfail (S i) ltac:(lia)) as [e' He'].
      exists e'. rewrite <- He'. f_equal.
      rewrite !calls_app. simpl. unfold calls; simpl. lia.
    + lia.
Qed.

(** On an unrecognised tier every attempt but the last permitted one is
    followed by its delay, and the last one lets the error out. *)
Lemma retry_loop_invalid prompt model_type max_retries kwargs :
  tier_model settings model_type = None ->
  forall n a log,
    Z.of_nat (a + S n) = max_retries ->
    retry_loop settings backend prompt model_type max_retries kwargs
               (attempts_from a (S n)) log =
    (Raise (ValueError (py "Invalid model_type: " ++ model_type)),
     log ++ delays Options a n).
Proof.
  intros Htier. induction n as [|n IH]; intros a log Hmax.
  - cbn [attempts_from seq List.map retry_loop].
    unfold try_except. rewrite dispatch_invalid by exact Htier.
    replace (Z.of_nat a =? max_retries - 1)%Z with true
      by (symmetry; apply Z.eqb_eq; lia).
    unfold raise. now rewrite app_nil_r.
  - change (attempts_from a (S (S n)))
      with (Z.of_nat a :: attempts_from (S a) (S n)).
    cbn [retry_loop]. unfold try_except at 1.
    rewrite dispatch_invalid by exact Htier.
    replace (Z.of_nat a =? max_retries - 1)%Z with false
      by (symmetry; apply Z.eqb_neq; lia).
    unfold bind at 1, time_sleep at 1.
    rewrite IH by lia. f_equal.
    unfold delays, backoff. simpl. now rewrite <- app_assoc.
Qed.

End ServiceFacts.

(* ===================================================================== *)
(** * The tier generators *)
(* ===================================================================== *)

(** C9: each tier-specific generator makes one call to the hosted model
    with the model identifier of its tier; when the call returns a
    response object, the result is [None] if that object is falsy and
    otherwise exactly its [text] attribute, unchanged; an error of the
    call is passed on. *)
Theorem generate_returns_text_verbatim :
  forall (Options : Type) (settings : Settings)
         (backend : nat -> Py.str -> Py.str -> Options -> outcome Response)
         (prompt : Py.str) (kwargs : Options) (log : list (event Options)),
    let result_of model :=
      (match backend (calls log) model prompt kwargs with
       | Return response =>
           Return (if truthy response then Some (text response) else None)
       | Raise e => Raise e
       end, log ++ [Call model prompt kwargs]) in
    generate_with_lite settings backend prompt kwargs log
      = result_of (GEMINI_MODEL_LITE settings)
    /\ generate_with_flash settings backend prompt kwargs log
      = result_of (GEMINI_MODEL_FLASH settings)
    /\ generate_with_pro settings backend prompt kwargs log
      = result_of (GEMINI_MODEL_PRO settings).
Proof.
  intros. subst result_of.
  unfold generate_with_lite, generate_with_flash, generate_with_pro,
    bind, generate_content, ret, text_or_none.
  repeat split; now destruct (backend _ _ _ _).
Qed.

(* ===================================================================== *)
(** * The retry loop *)
(* ===================================================================== *)

(** What the loop does on an unrecognised tier, for any positive budget:
    no call to the hosted model, a delay after every attempt but the last,
    and the [ValueError] of the last attempt. *)
Lemma generate_with_retry_invalid_tier :
  forall (Options : Type) (settings : Settings)
         (backend : nat -> Py.str -> Py.str -> Options -> outcome Response)
         (prompt model_type : Py.str) (max_retries : Z) (kwargs : Options),
    tier_model settings model_type = None ->
    (1 <= max_retries)%Z ->
    run (generate_with_retry settings backend prompt model_type
                             max_retries kwargs)
    = (Raise (ValueError (py "Invalid model_type: " ++ model_type)),
       delays Options 0 (Z.to_nat max_retries - 1)).
Proof.
  intros Options settings backend prompt model_type max_retries kwargs Ht Hm.
  unfold run, generate_with_retry. rewrite range_attempts.
  replace (Z.to_nat max_retries) with (S (Z.to_nat max_retries - 1)) at 1
    by lia.
  rewrite retry_loop_invalid by (exact Ht || lia).
  reflexivity.
Qed.

(** C1, at the tier ["turbo"] with the default budget of 3: the
    [ValueError] of the tier check is caught by the handler of the loop
    like any other error, so it comes out only on the third attempt, after
    delays of 1 and 2 time units, the hosted model never being called. *)
Theorem invalid_tier_is_retried :
  forall (Options : Type) (settings : Settings)
         (backend : nat -> Py.str -> Py.str -> Options -> outcome Response)
         (prompt : Py.str) (kwargs : Options),
    run (generate_with_retry settings backend prompt (py "turbo") 3 kwargs)
    = (Raise (ValueError (py "Invalid model_type: turbo")),
       [Sleep 1; Sleep 2]).
Proof. intros. reflexivity. Qed.

(** C2: on a recognised tier, when the first [k] calls to the hosted model
    raise and the next one returns a response, with [k < max_retries], the
    loop returns the value of that response, having made [k + 1] calls and
    slept [k] times, for 1, 2, 4, ..., [2^(k-1)] time units in that order,
    each delay following the call that failed. *)
Theorem generate_with_retry_recovers :
  forall (Options : Type) (settings : Settings)
         (backend : nat -> Py.str -> Py.str -> Options -> outcome Response)
         (prompt model_type model : Py.str) (max_retries : Z)
         (kwargs : Options) (k : nat) (response : Response),
    tier_model settings model_type = Some model ->
    (Z.of_nat k < max_retries)%Z ->
    (forall i, i < k -> exists e, backend i model prompt kwargs = Raise e) ->
    backend k model prompt kwargs = Return response ->
    let log := failed_attempts model prompt kwargs 0 k
               ++ [Call model prompt kwargs] in
    run (generate_with_retry settings backend prompt model_type
                             max_retries kwargs)
    = (Return (if truthy response then Some (text response) else None), log)
    /\ calls log = k + 1
    /\ sleeps log = List.map (fun i => 2 ^ Z.of_nat i)%Z (seq 0 k).
Proof.
  intros Options settings backend prompt model_type model max_retries kwargs
         k response Htier Hk Hfail Hok log.
  split; [|split].
  - unfold run, generate_with_retry. rewrite range_attempts.
    replace (Z.to_nat max_retries)
      with (k + S (Z.to_nat max_retries - S k)) by lia.
    rewrite retry_loop_skips_failures with (model := model);
      [|exact Htier|exact Hfail|lia].
    cbn [attempts_from seq List.map retry_loop app].
    unfold try_except. rewrite dispatch_valid with (model := model)
      by exact Htier.
    rewrite calls_failed_attempts. cbn [Nat.add].
    now rewrite Hok.
  - subst log. rewrite calls_app, calls_failed_attempts. reflexivity.
  - subst log. rewrite sleeps_app, sleeps_failed_attempts.
    cbn [sleeps]. now rewrite app_nil_r.
Qed.

(** C3: on a recognised tier and with a budget of at least one attempt,
    when every call to the hosted model raises, the loop makes exactly
    [max_retries] calls and raises the very error of the last call; the
    earlier failures were each followed by their delay. *)
Theorem generate_with_retry_reraises_last :
  forall (Options : Type) (settings : Settings)
         (backend : nat -> Py.str -> Py.str -> Options -> outcome Response)
         (prompt model_type model : Py.str) (max_retries : Z)
         (kwargs : Options) (err : nat -> exn),
    tier_model settings model_type = Some model ->
    (1 <= max_retries)%Z ->
    (forall i, (Z.of_nat i < max_retries)%Z ->
               backend i model prompt kwargs = Raise (err i)) ->
    let last := Z.to_nat max_retries - 1 in
    let log := failed_attempts model prompt kwargs 0 last
               ++ [Call model prompt kwargs] in
    run (generate_with_retry settings backend prompt model_type
                             max_retries kwargs)
    = (Raise (err last), log)
    /\ Z.of_nat (calls log) = max_retries
    /\ sleeps log = List.map (fun i => 2 ^ Z.of_nat i)%Z (seq 0 last).
Proof.
  intros Options settings backend prompt model_type model max_retries kwargs
         err Htier Hm Hfail last log.
  split; [|split].
  - unfold run, generate_with_retry. rewrite range_attempts.
    replace (Z.to_nat max_retries) with (last + 1) by (subst last; lia).
    rewrite retry_loop_skips_failures with (model := model);
      [|exact Htier| |subst last; lia].
    + cbn [attempts_from seq List.map retry_loop app].
      unfold try_except. rewrite dispatch_valid with (model := model)
        by exact Htier.
      rewrite calls_failed_attempts. cbn [Nat.add].
      rewrite Hfail by (subst last; lia).
      replace (Z.of_nat last =? max_retries - 1)%Z with true
        by (symmetry; apply Z.eqb_eq; subst last; lia).
      reflexivity.
    + intros i Hi. exists (err i). apply Hfail. subst last; lia.
  - subst log. rewrite calls_app, calls_failed_attempts.
    unfold calls; simpl. subst last; lia.
  - subst log. rewrite sleeps_app, sleeps_failed_attempts.
    cbn [sleeps]. now rewrite app_nil_r.
Qed.

(** C4: with a budget of zero or less the loop body never runs: the
    hosted model is not called, nothing is slept, and the call ends in the
    [RuntimeError] of the statement after the loop, which is neither a
    normal return nor the [ValueError] of the tier check (nor any
    [ValueError] at all), and which no call to the hosted model
    produced. *)
Theorem generate_with_retry_no_budget :
  forall (Options : Type) (settings : Settings)
         (backend : nat -> Py.str -> Py.str -> Options -> outcome Response)
         (prompt model_type : Py.str) (max_retries : Z) (kwargs : Options),
    (max_retries <= 0)%Z ->
    let exhausted := RuntimeError (py "Failed after maximum retries") in
    let result := run (generate_with_retry settings backend prompt model_type
                                           max_retries kwargs) in
    result = (Raise exhausted, [])
    /\ calls (snd result) = 0
    /\ sleeps (snd result) = []
    /\ (forall v, fst result <> Return v)
    /\ exhausted <> ValueError (py "Invalid model_type: " ++ model_type)
    /\ isinstance_ValueError exhausted = false.
Proof.
  intros Options settings backend prompt model_type max_retries kwargs Hm
         exhausted result.
  assert (Hres : result = (Raise exhausted, [])).
  { subst result. unfold run, generate_with_retry, range.
    replace (Z.to_nat max_retries) with 0 by lia. reflexivity. }
  rewrite Hres. repeat split; try discriminate.
Qed.

(* ===================================================================== *)
(** * The decoder never runs out of fuel *)
(* ===================================================================== *)

Module JSONFacts.
Import JSON.

(** Case analysis on the next [match] or [if] of the goal or of a
    hypothesis, keeping the equation. *)
Ltac break_match :=
  match goal with
  | H : context [match ?x with _ => _ end] |- _ =>
      first [is_var x; destruct x | destruct x eqn:?]
  | |- context [match ?x with _ => _ end] =>
      first [is_var x; destruct x | destruct x eqn:?]
  end.

Lemma skip_ws_length (s : Py.str) :
  List.length (skip_ws s) <= List.length s.
Proof.
  induction s as [|c r IH]; simpl; [lia|].
  destruct (is_ws c); simpl; lia.
Qed.

Lemma skip_ws_cons (s r : Py.str) (x : N) :
  skip_ws s = x :: r -> S (List.length r) <= List.length s.
Proof.
  intro H. pose proof (skip_ws_length s) as L. rewrite H in L. exact L.
Qed.

Lemma decode_uXXXX_length (s r : Py.str) (u : N) :
  decode_uXXXX s = Some (u, r) -> List.length s = 4 + List.length r.
Proof.
  unfold decode_uXXXX. intro H.
  repeat break_match; try discriminate.
  injection H as _ <-. reflexivity.
Qed.

Lemma join_surrogates_length (u : N) (r : Py.str) :
  List.length (snd (join_surrogates u r)) <= List.length r.
Proof.
  unfold join_surrogates.
  repeat break_match; simpl; try lia.
  match goal with H : decode_uXXXX _ = Some _ |- _ =>
    apply decode_uXXXX_length in H; lia end.
Qed.

Lemma string_char_length (c ch : N) (r r' : Py.str) :
  string_char c r = Some (ch, r') -> List.length r' <= List.length r.
Proof.
  unfold string_char. intro H.
  destruct (c <? 32)%N; [discriminate|].
  destruct (c =? 92)%N; [|injection H as _ <-; lia].
  destruct r as [|e r1]; [discriminate|].
  destruct (e =? 117)%N.
  - destruct (decode_uXXXX r1) as [[uni r2]|] eqn:E; [|discriminate].
    injection H as H. apply decode_uXXXX_length in E.
    pose proof (join_surrogates_length uni r2) as L.
    rewrite H in L. simpl in *. lia.
  - destruct (backslash e); [|discriminate].
    injection H as _ <-. simpl; lia.
Qed.

Lemma scanstring_rest (fuel : nat) :
  forall s k r, scanstring fuel s = Ok k r ->
                List.length r < List.length s.
Proof.
  induction fuel as [|fuel IH]; intros s k r H; [discriminate|].
  cbn [scanstring] in H. destruct s as [|c s]; [discriminate|].
  destruct (c =? 34)%N.
  - injection H as _ <-. simpl; lia.
  - destruct (string_char c s) as [[ch r']|] eqn:E; [|discriminate].
    apply string_char_length in E.
    destruct (scanstring fuel r') eqn:E'; try discriminate.
    injection H as _ <-. apply IH in E'. simpl; lia.
Qed.

Lemma scanstring_fuel (fuel : nat) :
  forall s, List.length s < fuel -> scanstring fuel s <> OutOfFuel.
Proof.
  induction fuel as [|fuel IH]; intros s L; [lia|].
  cbn [scanstring]. destruct s as [|c s]; [discriminate|].
  destruct (c =? 34)%N; [discriminate|].
  destruct (string_char c s) as [[ch r']|] eqn:E; [|discriminate].
  apply string_char_length in E.
  specialize (IH r'). simpl in L.
  destruct (scanstring fuel r'); try discriminate.
  intros _. apply IH; [lia|reflexivity].
Qed.

Lemma span_digits_length (s d r : Py.str) :
  span_digits s = (d, r) -> List.length r <= List.length s.
Proof.
  revert d r. induction s as [|c s IH]; simpl; intros d r H.
  - injection H as _ <-. simpl; lia.
  - destruct (isdigit c).
    + destruct (span_digits s) as [d' r'] eqn:E.
      injection H as _ <-. specialize (IH _ _ eq_refl). lia.
    + injection H as _ <-. simpl; lia.
Qed.

Lemma match_integer_length (s i r : Py.str) :
  match_integer s = Some (i, r) -> List.length r < List.length s.
Proof.
  unfold match_integer. intro H.
  destruct s as [|c s]; [discriminate|].
  destruct (c =? 45)%N.
  - destruct s as [|c' s]; [discriminate|].
    destruct (c' =? 48)%N; [injection H as _ <-; simpl; lia|].
    destruct (isdigit c'); [|discriminate].
    destruct (span_digits s) as [d r'] eqn:E.
    injection H as _ <-. apply span_digits_length in E. simpl; lia.
  - destruct (c =? 48)%N; [injection H as _ <-; simpl; lia|].
    destruct (isdigit c); [|discriminate].
    destruct (span_digits s) as [d r'] eqn:E.
    injection H as _ <-. apply span_digits_length in E. simpl; lia.
Qed.

Lemma match_frac_length (s f r : Py.str) :
  match_frac s = (f, r) -> List.length r <= List.length s.
Proof.
  unfold match_frac. intro H.
  destruct s as [|c s]; [injection H as _ <-; lia|].
  destruct (c =? 46)%N; [|injection H as _ <-; lia].
  destruct (span_digits s) as [[|x d] r'] eqn:E;
    injection H as _ <-; [lia|].
  apply span_digits_length in E. simpl; lia.
Qed.

Lemma match_exp_length (s e r : Py.str) :
  match_exp s = (e, r) -> List.length r <= List.length s.
Proof.
  unfold match_exp. intro H.
  destruct s as [|c s]; [injection H as _ <-; lia|].
  destruct ((c =? 101) || (c =? 69))%N; [|injection H as _ <-; lia].
  destruct s as [|x s'].
  - simpl in H. injection H as _ <-. lia.
  - destruct ((x =? 45) || (x =? 43))%N.
    + destruct (span_digits s') as [[|y d] r'] eqn:E;
        injection H as _ <-; [lia|].
      apply span_digits_length in E. simpl; lia.
    + destruct (span_digits (x :: s')) as [[|y d] r'] eqn:E;
        injection H as _ <-; [lia|].
      apply span_digits_length in E. simpl in *; lia.
Qed.

Lemma match_number_length (lim : limits) (s r : Py.str)
      (o : outcome value) :
  match_number lim s = Some (o, r) -> List.length r < List.length s.
Proof.
  unfold match_number. intro H.
  destruct (match_integer s) as [[i r0]|] eqn:Ei; [|discriminate].
  destruct (match_frac r0) as [f r1] eqn:Ef.
  destruct (match_exp r1) as [e r2] eqn:Ee.
  apply match_integer_length in Ei.
  apply match_frac_length in Ef. apply match_exp_length in Ee.
  destruct (f ++ e); injection H as _ <-; lia.
Qed.

Lemma startswith_length (p s : Py.str) :
  Py.startswith s p = true -> List.length p <= List.length s.
Proof.
  revert s. induction p as [|a p IH]; intros s H; simpl; [lia|].
  destruct s as [|b s]; [discriminate|].
  simpl in H. apply andb_prop in H as [_ H]. apply IH in H. simpl; lia.
Qed.

Lemma after_length (p s r : Py.str) :
  after p s = Some r -> List.length s = List.length p + List.length r.
Proof.
  unfold after. destruct (Py.startswith s p) eqn:E; [|discriminate].
  intros [= <-]. apply startswith_length in E.
  rewrite length_skipn. lia.
Qed.

(** What a hypothesis about a scanner says on lengths. *)
Ltac length_fact :=
  match goal with
  | H : scanstring _ _ = Ok _ _ |- _ => apply scanstring_rest in H
  | H : match_number _ _ = Some _ |- _ => apply match_number_length in H
  | H : after _ _ = Some _ |- _ => apply after_length in H
  | H : skip_ws _ = _ :: _ |- _ => apply skip_ws_cons in H
  end.


Ltac skip_ws_facts :=
  repeat match goal with
    | H : context [skip_ws ?x] |- _ =>
        lazymatch goal with
        | _ : List.length (skip_ws x) <= List.length x |- _ => fail
        | _ => pose proof (skip_ws_length x)
        end
    end.

Lemma scan_rest (lim : limits) (fuel : nat) :
  (forall depth s v r, scan_once lim fuel depth s = Ok v r ->
                       List.length r < List.length s)
  /\ (forall depth s l r, members lim fuel depth s = Ok l r ->
                          List.length r < List.length s)
  /\ (forall depth s l r, elements lim fuel depth s = Ok l r ->
                          List.length r < List.length s).
Proof.
  induction fuel as [|fuel (IHv & IHm & IHe)];
    [repeat split; discriminate|].
  repeat split; intros depth s ? r H.
  - cbn [scan_once] in H. destruct s as [|c s]; [discriminate|].
    repeat break_match; try discriminate;
      injection H as _ <-;
      repeat length_fact;
      repeat match goal with
        | H : members _ _ _ _ = Ok _ _ |- _ => apply IHm in H
        | H : elements _ _ _ _ = Ok _ _ |- _ => apply IHe in H
        end;
      cbn [List.length Py.lit List.map list_ascii_of_string] in *; lia.
  - cbn [members] in H.
    repeat break_match; try discriminate;
      injection H as _ <-;
      skip_ws_facts;
      repeat length_fact;
      repeat match goal with
        | H : scan_once _ _ _ _ = Ok _ _ |- _ => apply IHv in H
        | H : members _ _ _ _ = Ok _ _ |- _ => apply IHm in H
        end;
      cbn [List.length] in *; lia.
  - cbn [elements] in H.
    repeat break_match; try discriminate;
      injection H as _ <-;
      skip_ws_facts;
      repeat length_fact;
      repeat match goal with
        | H : scan_once _ _ _ _ = Ok _ _ |- _ => apply IHv in H
        | H : elements _ _ _ _ = Ok _ _ |- _ => apply IHe in H
        end;
      cbn [List.length] in *; lia.
Qed.

Lemma scan_fuel (lim : limits) (fuel : nat) :
  (forall depth s, 2 * List.length s < fuel ->
                   scan_once lim fuel depth s <> OutOfFuel)
  /\ (forall depth s, 2 * List.length s + 1 < fuel ->
                      members lim fuel depth s <> OutOfFuel)
  /\ (forall depth s, 2 * List.length s + 1 < fuel ->
                      elements lim fuel depth s <> OutOfFuel).
Proof.
  induction fuel as [|fuel (IHv & IHm & IHe)];
    [repeat split; intros; lia|].
  pose proof (scan_rest lim fuel) as (Rv & Rm & Re).
  repeat split; intros depth s L.
  - cbn [scan_once]. destruct s as [|c s]; [discriminate|].
    cbn [List.length] in L.
    repeat break_match; try discriminate;
      skip_ws_facts; repeat length_fact.
    all: cbn [List.length] in *.
    + exfalso. eapply scanstring_fuel; [|eassumption]. lia.
    + exfalso. eapply IHm; [|eassumption]. lia.
    + exfalso. eapply IHe; [|eassumption]. cbn [List.length]. lia.
  - cbn [members].
    repeat break_match; try discriminate.
    all: skip_ws_facts.
    all: repeat match goal with
        | H : scanstring _ _ = Ok _ _ |- _ => apply scanstring_rest in H
        | H : skip_ws _ = _ :: _ |- _ => apply skip_ws_cons in H
        | H : scan_once _ _ _ _ = Ok _ _ |- _ => apply Rv in H
        end.
    all: cbn [List.length] in *.
    + exfalso. eapply IHm; [|eassumption]. lia.
    + exfalso. eapply IHv; [|eassumption]. lia.
    + exfalso. eapply scanstring_fuel; [|eassumption]. lia.
  - cbn [elements].
    repeat break_match; try discriminate.
    all: skip_ws_facts.
    all: repeat match goal with
        | H : skip_ws _ = _ :: _ |- _ => apply skip_ws_cons in H
        | H : scan_once _ _ _ _ = Ok _ _ |- _ => apply Rv in H
        end.
    all: cbn [List.length] in *.
    + exfalso. eapply IHe; [|eassumption]. lia.
    + exfalso. eapply IHv; [|eassumption]. lia.
Qed.

(** The fuel [loads] gives the scanner is enough for any text. *)
Lemma loads_fuel (lim : limits) (s : Py.str) :
  scan_once lim (fuel_for s) (recursion_limit lim) (skip_ws s) <> OutOfFuel.
Proof.
  apply (proj1 (scan_fuel lim (fuel_for s))).
  unfold fuel_for. pose proof (skip_ws_length s). lia.
Qed.






(** A document that starts with an opening brace decodes to a dict or
    not at all. *)
Lemma loads_brace_dict (lim : limits) (s : Py.str) (v : value) :
  loads lim (Re.lbrace :: s) = Return v -> is_dict v = true.
Proof.
  unfold loads, fuel_for. cbn [skip_ws is_ws Re.lbrace N.eqb Pos.eqb orb].
  cbn [scan_once N.eqb Pos.eqb]. intro H.
  repeat break_match; try discriminate; injection H as <-;
    match goal with H : _ = Ok _ _ |- _ => injection H as <- _ end;
    reflexivity.
Qed.

End JSONFacts.

(* ===================================================================== *)
(** * Stripping and the regular expression *)
(* ===================================================================== *)

Section StripFacts.

Lemma all_space_app (a b : Py.str) :
  all_space (a ++ b) = all_space a && all_space b.
Proof. apply forallb_app. Qed.

Lemma all_space_rev (a : Py.str) : all_space (rev a) = all_space a.
Proof.
  induction a as [|c a IH]; [reflexivity|].
  simpl. rewrite all_space_app, IH. simpl.
  now rewrite andb_true_r, andb_comm.
Qed.

Lemma lstrip_space (ws s : Py.str) :
  all_space ws = true -> Py.lstrip (ws ++ s) = Py.lstrip s.
Proof.
  induction ws as [|c ws IH]; [reflexivity|].
  simpl. intro H. apply andb_prop in H as [Hc Hws].
  rewrite Hc. now apply IH.
Qed.

Lemma lstrip_solid (c : N) (s : Py.str) :
  Py.isspace c = false -> Py.lstrip (c :: s) = c :: s.
Proof. intro H. simpl. now rewrite H. Qed.

Lemma rstrip_space (ws s : Py.str) :
  all_space ws = true -> Py.rstrip (s ++ ws) = Py.rstrip s.
Proof.
  intro H. unfold Py.rstrip. rewrite rev_app_distr.
  rewrite lstrip_space; [reflexivity|now rewrite all_space_rev].
Qed.

Lemma rstrip_solid (c : N) (s : Py.str) :
  Py.isspace c = false -> Py.rstrip (s ++ [c]) = s ++ [c].
Proof.
  intro H. unfold Py.rstrip. rewrite rev_app_distr. simpl.
  rewrite H. simpl. now rewrite rev_involutive.
Qed.

Lemma strip_all_space (ws : Py.str) :
  all_space ws = true -> Py.strip ws = [].
Proof.
  intro H. unfold Py.strip.
  replace (Py.lstrip ws) with (@nil N); [reflexivity|].
  rewrite <- (app_nil_r ws). now rewrite lstrip_space.
Qed.

Lemma startswith_app (p s : Py.str) : Py.startswith (p ++ s) p = true.
Proof.
  induction p as [|c p IH]; [reflexivity|].
  simpl. now rewrite N.eqb_refl.
Qed.

Lemma endswith_app (p s : Py.str) : Py.endswith (s ++ p) p = true.
Proof. unfold Py.endswith. rewrite rev_app_distr. apply startswith_app. Qed.

Lemma slice_to_neg_app (p s : Py.str) :
  Py.slice_to_neg (List.length p) (s ++ p) = s.
Proof.
  unfold Py.slice_to_neg. rewrite length_app.
  replace (List.length s + List.length p - List.length p)
    with (List.length s + 0) by lia.
  rewrite firstn_app_2. simpl. apply app_nil_r.
Qed.

(** A text that starts with one character and ends with another is
    that character, a middle part, and the other one. *)
Lemma startswith_endswith_inv (s : Py.str) (a b : N) :
  Py.startswith s [a] = true -> Py.endswith s [b] = true ->
  a <> b ->
  exists mid, s = a :: mid ++ [b].
Proof.
  intros Ha Hb Hab.
  destruct s as [|x s]; [discriminate|].
  simpl in Ha. rewrite andb_true_r in Ha. apply N.eqb_eq in Ha. subst x.
  unfold Py.endswith in Hb.
  destruct s as [|y s] using rev_ind.
  - simpl in Hb. rewrite andb_true_r in Hb. apply N.eqb_eq in Hb.
    congruence.
  - change (a :: s ++ [y]) with ((a :: s) ++ [y]) in Hb.
    rewrite rev_app_distr in Hb. simpl in Hb.
    rewrite andb_true_r in Hb. apply N.eqb_eq in Hb. subst y.
    now exists s.
Qed.

End StripFacts.

Section ReFacts.

Lemma match_dotstar_rbrace_rfind (s : Py.str) :
  Re.match_dotstar_rbrace s =
    match Py.rfind Re.rbrace s with
    | Some j => Some (firstn (S j) s)
    | None => None
    end.
Proof.
  induction s as [|c s IH]; [reflexivity|].
  cbn [Re.match_dotstar_rbrace Py.rfind]. rewrite IH.
  destruct (Py.rfind Re.rbrace s); [reflexivity|].
  now destruct (c =? Re.rbrace)%N.
Qed.

Lemma search_no_rbrace (s : Py.str) :
  Py.rfind Re.rbrace s = None -> Re.search s = None.
Proof.
  induction s as [|c s IH]; [reflexivity|].
  cbn [Re.search Py.rfind]. intro H.
  destruct (Py.rfind Re.rbrace s) eqn:E; [discriminate|].
  rewrite match_dotstar_rbrace_rfind, E, IH by reflexivity.
  now destruct (c =? Re.lbrace)%N.
Qed.

(** The match of the pattern is the widest brace-delimited span. *)
Lemma search_widest_brace_span (s : Py.str) :
  Re.search s = widest_brace_span s.
Proof.
  induction s as [|c s IH]; [reflexivity|].
  unfold widest_brace_span in *. cbn [Re.search Py.find Py.rfind].
  rewrite match_dotstar_rbrace_rfind.
  destruct (c =? Re.lbrace)%N eqn:Ec.
  - destruct (Py.rfind Re.rbrace s) as [j|] eqn:Ej.
    + reflexivity.
    + rewrite search_no_rbrace by exact Ej.
      apply N.eqb_eq in Ec. subst c. reflexivity.
  - rewrite IH.
    destruct (Py.find Re.lbrace s) as [i|]; [|reflexivity].
    destruct (Py.rfind Re.rbrace s) as [j|].
    + reflexivity.
    + now destruct (c =? Re.rbrace)%N.
Qed.

End ReFacts.

(* ===================================================================== *)
(** * The JSON extractor *)
(* ===================================================================== *)

Section ExtractorFacts.

Lemma falsy_nonempty (t : Py.str) : t <> [] -> falsy (Some t) = false.
Proof. destruct t; [congruence|reflexivity]. Qed.

(** Stripping whitespace from both ends of a padded text whose first and
    last characters are not whitespace gives the text back. *)
Lemma strip_core (ws1 ws2 core t t' : Py.str) (a b : N) :
  core = a :: t -> core = t' ++ [b] ->
  all_space ws1 = true -> all_space ws2 = true ->
  Py.isspace a = false -> Py.isspace b = false ->
  Py.strip (ws1 ++ core ++ ws2) = core.
Proof.
  intros Ea Eb H1 H2 Ha Hb. unfold Py.strip.
  rewrite lstrip_space by exact H1.
  rewrite Ea at 1. cbn [app]. rewrite lstrip_solid by exact Ha.
  change (a :: t ++ ws2) with ((a :: t) ++ ws2). rewrite <- Ea.
  rewrite rstrip_space by exact H2.
  rewrite Eb. now apply rstrip_solid.
Qed.

(** The text between the fences comes out of [unfence]. *)
Lemma unfence_fenced (fence lead gap1 gap2 trail body : Py.str) :
  is_fence fence ->
  all_space lead = true -> all_space gap1 = true ->
  all_space gap2 = true -> all_space trail = true ->
  Py.startswith body (py "{") = true ->
  Py.endswith body (py "}") = true ->
  unfence (lead ++ fence ++ gap1 ++ body ++ gap2 ++ py "```" ++ trail)
  = body.
Proof.
  intros Hf Hl Hg1 Hg2 Ht Hs He.
  destruct (@startswith_endswith_inv body 123%N 125%N Hs He ltac:(discriminate))
    as [mid ->].
  set (body := 123%N :: mid ++ [125%N]).
  set (inner := gap1 ++ body ++ gap2).
  assert (Hin : Py.strip inner = body).
  { subst inner.
    apply strip_core with (a := 123%N) (t := mid ++ [125%N])
                          (t' := 123%N :: mid) (b := 125%N);
      auto. }
  assert (Htail : forall p,
             Py.strip (lead ++ (p ++ inner ++ py "```") ++ trail)
             = p ++ inner ++ py "```" -> 
             lead ++ p ++ gap1 ++ body ++ gap2 ++ py "```" ++ trail
             = lead ++ (p ++ inner ++ py "```") ++ trail).
  { intros p _. subst inner. now rewrite <- !app_assoc. }
  assert (Hend : Py.endswith (inner ++ py "```") (py "```") = true)
    by apply endswith_app.
  assert (Hcut : Py.slice_to_neg 3 (inner ++ py "```") = inner)
    by apply (slice_to_neg_app (py "```")).
  unfold unfence.
  destruct Hf as [-> | ->].
  - assert (Hstrip : Py.strip (lead ++ (py "```json" ++ inner ++ py "```")
                                    ++ trail)
                     = py "```json" ++ inner ++ py "```").
    { apply strip_core with (a := 96%N) (b := 96%N)
        (t := py "``json" ++ inner ++ py "```")
        (t' := py "```json" ++ inner ++ py "``"); auto.
      now rewrite <- !app_assoc. }
    rewrite (Htail _ Hstrip), Hstrip.
    rewrite startswith_app.
    change (Py.slice_from 7 (py "```json" ++ inner ++ py "```"))
      with (inner ++ py "```").
    now rewrite Hend, Hcut.
  - assert (Hstrip : Py.strip (lead ++ (py "```" ++ inner ++ py "```")
                                    ++ trail)
                     = py "```" ++ inner ++ py "```").
    { apply strip_core with (a := 96%N) (b := 96%N)
        (t := py "``" ++ inner ++ py "```")
        (t' := py "```" ++ inner ++ py "``"); auto.
      now rewrite <- !app_assoc. }
    rewrite (Htail _ Hstrip), Hstrip.
    assert (Hno : Py.startswith (py "```" ++ inner ++ py "```")
                                (py "```json") = false).
    { subst inner. destruct gap1 as [|g gap1]; [reflexivity|].
      simpl in Hg1. apply andb_prop in Hg1 as [Hg _].
      assert (E : (106 =? g)%N = false)
        by (destruct (N.eqb_spec 106 g) as [<-|]; [discriminate|reflexivity]).
      cbn -[N.eqb]. rewrite !N.eqb_refl, E. reflexivity. }
    rewrite Hno, startswith_app.
    change (Py.slice_from 3 (py "```" ++ inner ++ py "```"))
      with (inner ++ py "```").
    now rewrite Hend, Hcut.
Qed.

(** Empty and absent input are refused at once. *)
Lemma empty_input_rejected (lim : JSON.limits) :
  parse_json_response lim None
  = Raise (ValueError (py "Empty response text"))
  /\ parse_json_response lim (Some [])
     = Raise (ValueError (py "Empty response text")).
Proof. split; reflexivity. Qed.

(** When the strict parse succeeds its value is the result. *)
Lemma strict_parse_returned (lim : JSON.limits) (response_text : Py.str)
      (v : JSON.value) :
  response_text <> [] ->
  JSON.loads lim (unfence response_text) = Return v ->
  parse_json_response lim (Some response_text) = Return v.
Proof.
  intros Hne Hv. unfold parse_json_response.
  rewrite falsy_nonempty by exact Hne. now rewrite Hv.
Qed.

(** When the strict parse fails with a decode error the result is that
    of the fallback. *)
Lemma strict_parse_failed (lim : JSON.limits) (response_text : Py.str) :
  response_text <> [] ->
  JSON.loads lim (unfence response_text) = Raise JSONDecodeError ->
  parse_json_response lim (Some response_text) =
    match widest_brace_span (unfence response_text) with
    | Some span => JSON.loads lim span
    | None =>
        Raise (ValueError (py "Could not parse JSON from Gemini response"))
    end.
Proof.
  intros Hne He. unfold parse_json_response.
  rewrite falsy_nonempty by exact Hne.
  rewrite He. now rewrite search_widest_brace_span.
Qed.

(** When the strict parse fails with any other error, that error comes
    out and the fallback is not tried. *)
Lemma strict_parse_aborted (lim : JSON.limits) (response_text : Py.str)
      (e : exn) :
  response_text <> [] ->
  e <> JSONDecodeError ->
  JSON.loads lim (unfence response_text) = Raise e ->
  parse_json_response lim (Some response_text) = Raise e.
Proof.
  intros Hne Hd He. unfold parse_json_response.
  rewrite falsy_nonempty by exact Hne.
  rewrite He. now destruct e.
Qed.

(** A brace-delimited span starts with an opening brace. *)
Lemma widest_brace_span_head (s span : Py.str) :
  widest_brace_span s = Some span ->
  exists rest, span = Re.lbrace :: rest.
Proof.
  unfold widest_brace_span.
  destruct (Py.find Re.lbrace s) as [i|] eqn:Ei; [|discriminate].
  destruct (Py.rfind Re.rbrace s) as [j|]; [|discriminate].
  destruct (i <? j) eqn:Eij; [|discriminate]. intros [= <-].
  apply Nat.ltb_lt in Eij. revert i j Ei Eij.
  induction s as [|c s IH]; intros i j Ei Eij; [discriminate|].
  cbn [Py.find] in Ei. destruct (c =? Re.lbrace)%N eqn:Ec.
  - injection Ei as <-. apply N.eqb_eq in Ec. subst c.
    unfold Py.slice. cbn [skipn]. replace (S j - 0) with (S j) by lia.
    cbn [firstn]. eauto.
  - destruct (Py.find Re.lbrace s) as [i'|] eqn:Ei'; [|discriminate].
    injection Ei as <-. destruct j as [|j]; [lia|].
    unfold Py.slice in *. cbn [skipn].
    replace (S (S j) - S i') with (S j - i') by lia.
    apply (IH i' j eq_refl). lia.
Qed.

(** On the fallback path only a dict can come out. *)
Lemma fallback_returns_dict (lim : JSON.limits) (response_text : Py.str)
      (v : JSON.value) :
  response_text <> [] ->
  JSON.loads lim (unfence response_text) = Raise JSONDecodeError ->
  parse_json_response lim (Some response_text) = Return v ->
  JSON.is_dict v = true.
Proof.
  intros Hne He Hv.
  rewrite (@strict_parse_failed lim response_text Hne He) in Hv.
  destruct (widest_brace_span (unfence response_text)) as [span|] eqn:Es;
    [|discriminate].
  apply widest_brace_span_head in Es as [rest ->].
  now apply JSONFacts.loads_brace_dict in Hv.
Qed.

End ExtractorFacts.

(** The examples of the specification. *)
Example extract_labelled_fence :
  parse_json_response JSON.default_limits
    (Some (py "```json" ++ [10%N] ++ pyq "{'a': 1}"
                                ++ [10%N] ++ py "```"))
  = Return (JSON.JDict [(py "a", JSON.JInt 1)]).
Proof. reflexivity. Qed.

Example extract_plain_fence :
  parse_json_response JSON.default_limits
    (Some (py "```" ++ [10%N] ++ pyq "{'x': [1,2,3]}"
                                ++ [10%N] ++ py "```"))
  = Return (JSON.JDict
              [(py "x", JSON.JList [JSON.JInt 1; JSON.JInt 2; JSON.JInt 3])]).
Proof. reflexivity. Qed.

Example extract_from_prose :
  parse_json_response JSON.default_limits (Some prose_example)
  = Return (JSON.JDict [(py "ok", JSON.JBool true)]).
Proof. reflexivity. Qed.

Example extract_not_json :
  parse_json_response JSON.default_limits (Some (py "not json at all"))
  = Raise (ValueError (py "Could not parse JSON from Gemini response")).
Proof. reflexivity. Qed.


(** C6, as amended: when the strict parse of the unfenced text fails
    with a decode error, the extractor decodes exactly the span from the
    first opening brace to the last closing brace of that text, newlines
    included, and its result is the result of that decoding: the value
    when the span is valid JSON; with no such span it raises the
    could-not-parse error.  When the strict parse fails with any other
    error, that error comes out and the span is not looked for. *)
Theorem fallback_parses_widest_brace_span :
  forall (lim : JSON.limits) (response_text : Py.str),
    response_text <> [] ->
    (JSON.loads lim (unfence response_text) = Raise JSONDecodeError ->
     parse_json_response lim (Some response_text) =
       match widest_brace_span (unfence response_text) with
       | Some span => JSON.loads lim span
       | None =>
           Raise (ValueError (py "Could not parse JSON from Gemini response"))
       end)
    /\ (forall e,
          e <> JSONDecodeError ->
          JSON.loads lim (unfence response_text) = Raise e ->
          parse_json_response lim (Some response_text) = Raise e).
Proof.
  intros lim response_text Hne. split.
  - now apply strict_parse_failed.
  - intros e. now apply strict_parse_aborted.
Qed.

(** C6, as it was stated, fails on two thousand opening brackets before
    an object: the strict parse fails, with the [RecursionError] of the
    interpreter and not with a decode error; the span from the first
    opening to the last closing brace is the object, which is valid JSON;
    and the extractor raises the [RecursionError] instead of returning
    the object. *)
Lemma strict_recursion_error_skips_fallback :
  let too_deep := JSON.too_deep "array" in
  JSON.loads JSON.default_limits (unfence deep_example) = Raise too_deep
  /\ widest_brace_span (unfence deep_example) = Some (pyq "{'a': 1}")
  /\ JSON.loads JSON.default_limits (pyq "{'a': 1}")
     = Return (JSON.JDict [(py "a", JSON.JInt 1)])
  /\ parse_json_response JSON.default_limits (Some deep_example)
     = Raise too_deep
  /\ parse_json_response JSON.default_limits (Some deep_example)
     <> JSON.loads JSON.default_limits (pyq "{'a': 1}").
Proof.
  assert (H : parse_json_response JSON.default_limits (Some deep_example)
              = Raise (JSON.too_deep "array")) by (vm_compute; reflexivity).
  repeat split; try (vm_compute; reflexivity).
  rewrite H. vm_compute. discriminate.
Qed.

(** C7, at the input [[1, 2]]: the strict parse succeeds on a JSON array
    and the extractor returns the list, which is not a mapping. *)
Theorem extractor_returns_list :
  parse_json_response JSON.default_limits (Some (py "[1, 2]"))
  = Return (JSON.JList [JSON.JInt 1; JSON.JInt 2])
  /\ JSON.is_dict (JSON.JList [JSON.JInt 1; JSON.JInt 2]) = false.
Proof. split; reflexivity. Qed.

(** C8, at the input [{oops}]: the strict parse fails, the fallback finds
    the whole text as its span, decoding the span fails too, and what
    comes out is the decoder's own error, not the could-not-parse
    error. *)
Theorem fallback_decode_error_escapes :
  JSON.loads JSON.default_limits (unfence (py "{oops}"))
  = Raise JSONDecodeError
  /\ widest_brace_span (unfence (py "{oops}")) = Some (py "{oops}")
  /\ JSON.loads JSON.default_limits (py "{oops}") = Raise JSONDecodeError
  /\ parse_json_response JSON.default_limits (Some (py "{oops}"))
     = Raise JSONDecodeError
  /\ JSONDecodeError
     <> ValueError (py "Could not parse JSON from Gemini response").
Proof. repeat split; try reflexivity. discriminate. Qed.

(** C10: a non-empty text of whitespace alone passes the emptiness check,
    is stripped to nothing, and ends in the could-not-parse error, whereas
    the empty text ends in the empty-input error; the two errors
    differ. *)
Theorem whitespace_only_is_not_empty_input :
  forall (lim : JSON.limits) (response_text : Py.str),
    response_text <> [] ->
    all_space response_text = true ->
    parse_json_response lim (Some response_text)
    = Raise (ValueError (py "Could not parse JSON from Gemini response"))
    /\ parse_json_response lim (Some [])
       = Raise (ValueError (py "Empty response text"))
    /\ ValueError (py "Could not parse JSON from Gemini response")
       <> ValueError (py "Empty response text").
Proof.
  intros lim response_text Hne Hws.
  split; [|split; [reflexivity|discriminate]].
  assert (Hu : unfence response_text = []).
  { unfold unfence. now rewrite (@strip_all_space response_text Hws). }
  rewrite strict_parse_failed; [now rewrite Hu|exact Hne|now rewrite Hu].
Qed.

(* ===================================================================== *)
(** * The theorems at sample inputs *)
(* ===================================================================== *)

(** Two failures, then an answer, within a budget of three. *)
Lemma generate_with_retry_recovers_witness :
  let call := Call (py "gemini-2.0-flash") (py "Hi") tt in
  let log := [call; Sleep 1; call; Sleep 2; call] in
  run (generate_with_retry sample_settings (flaky 2) (py "Hi") (py "flash")
                           3 tt)
  = (Return (Some (py " done ")), log)
  /\ calls log = 3
  /\ sleeps log = [1; 2]%Z.
Proof.
  apply (@generate_with_retry_recovers unit sample_settings (flaky 2)
           (py "Hi") (py "flash") (py "gemini-2.0-flash") 3%Z tt 2
           {| truthy := true; text := py " done " |}).
  - reflexivity.
  - reflexivity.
  - intros i Hi. exists (unavailable i).
    destruct i as [|[|i]]; [reflexivity|reflexivity|lia].
  - reflexivity.
Defined.

(** Three failures within a budget of three: the third error comes out. *)
Lemma generate_with_retry_reraises_last_witness :
  let call := Call (py "gemini-1.5-pro") (py "Hi") tt in
  let log := [call; Sleep 1; call; Sleep 2; call] in
  run (generate_with_retry sample_settings down (py "Hi") (py "pro") 3 tt)
  = (Raise (unavailable 2), log)
  /\ Z.of_nat (calls log) = 3%Z
  /\ sleeps log = [1; 2]%Z.
Proof.
  apply (@generate_with_retry_reraises_last unit sample_settings down
           (py "Hi") (py "pro") (py "gemini-1.5-pro") 3%Z tt unavailable).
  - reflexivity.
  - lia.
  - intros i _. reflexivity.
Defined.

(** A budget of zero. *)
Lemma generate_with_retry_no_budget_witness :
  run (generate_with_retry sample_settings down (py "Hi") (py "flash") 0 tt)
  = (Raise (RuntimeError (py "Failed after maximum retries")), []).
Proof.
  apply (@generate_with_retry_no_budget unit sample_settings down
           (py "Hi") (py "flash") 0%Z tt).
  lia.
Defined.


(** The example of the specification: an object inside prose. *)
Lemma fallback_parses_widest_brace_span_witness :
  parse_json_response JSON.default_limits (Some prose_example)
  = JSON.loads JSON.default_limits (pyq "{'ok': true}")
  /\ JSON.loads JSON.default_limits (pyq "{'ok': true}")
     = Return (JSON.JDict [(py "ok", JSON.JBool true)]).
Proof.
  split; [|reflexivity].
  apply (@fallback_parses_widest_brace_span JSON.default_limits
           prose_example).
  - discriminate.
  - reflexivity.
Defined.

(** A space, a newline and a tab. *)
Lemma whitespace_only_is_not_empty_input_witness :
  parse_json_response JSON.default_limits (Some [32%N; 10%N; 9%N])
  = Raise (ValueError (py "Could not parse JSON from Gemini response"))
  /\ parse_json_response JSON.default_limits (Some [])
     = Raise (ValueError (py "Empty response text"))
  /\ ValueError (py "Could not parse JSON from Gemini response")
     <> ValueError (py "Empty response text").
Proof.
  apply (@whitespace_only_is_not_empty_input JSON.default_limits
           [32%N; 10%N; 9%N]).
  - discriminate.
  - reflexivity.
Defined.

(* ===================================================================== *)
(** * More on the retry loop *)
(* ===================================================================== *)

Section RetryFacts.

Variable Options : Type.
Variable settings : Settings.
Variable backend : nat -> Py.str -> Py.str -> Options -> outcome Response.

Lemma backoff_cons (a j : nat) :
  backoff a (S j) = (2 ^ Z.of_nat a)%Z :: backoff (S a) j.
Proof. reflexivity. Qed.

Lemma sum_backoff (j a : nat) :
  fold_right Z.add 0%Z (backoff a j)
  = (2 ^ Z.of_nat (a + j) - 2 ^ Z.of_nat a)%Z.
Proof.
  revert a. induction j as [|j IH]; intro a.
  - simpl. rewrite Nat.add_0_r. lia.
  - rewrite backoff_cons. cbn [fold_right]. rewrite IH.
    replace (a + S j) with (S a + j) by lia.
    replace (Z.of_nat (S a)) with (Z.of_nat a + 1)%Z by lia.
    rewrite Z.pow_add_r by lia. lia.
Qed.

(** One attempt adds at most one call to the log, the call of the tier,
    and no delay. *)
Lemma dispatch_effect (prompt model_type : Py.str) (kwargs : Options)
      (log : list (event Options)) :
  exists o d,
    dispatch settings backend prompt model_type kwargs log = (o, log ++ d)
    /\ calls d <= 1
    /\ sleeps d = []
    /\ (forall model, tier_model settings model_type = Some model ->
                      calls_are model prompt kwargs d).
Proof.
  destruct (tier_model settings model_type) as [model|] eqn:Ht.
  - rewrite dispatch_valid with (model := model) by exact Ht.
    eexists. exists [Call model prompt kwargs].
    repeat split; [apply Nat.le_refl|].
    intros m [= <-]. now repeat constructor.
  - rewrite dispatch_invalid by exact Ht.
    eexists. exists []. rewrite app_nil_r.
    repeat split; [apply Nat.le_0_l|]. intros m [=].
Qed.

(** Whatever the hosted model does, the loop over [n] attempts adds at
    most [n] calls, and its delays are the first [j] powers of two of the
    backoff, with [j < n]. *)
Lemma retry_loop_effect (prompt model_type : Py.str) (max_retries : Z)
      (kwargs : Options) :
  forall n a log,
    n = 0 \/ Z.of_nat (a + n) = max_retries ->
    exists o ext j,
      retry_loop settings backend prompt model_type max_retries kwargs
                 (attempts_from a n) log = (o, log ++ ext)
      /\ calls ext <= n
      /\ j <= n - 1
      /\ sleeps ext = backoff a j
      /\ (forall model, tier_model settings model_type = Some model ->
                        calls_are model prompt kwargs ext).
Proof.
  induction n as [|n IH]; intros a log Hn.
  - eexists. exists [], 0. rewrite app_nil_r.
    repeat split; try reflexivity. intros; constructor.
  - destruct Hn as [Hn|Hn]; [discriminate|].
    change (attempts_from a (S n))
      with (Z.of_nat a :: attempts_from (S a) n).
    cbn [retry_loop]. unfold try_except at 1.
    destruct (dispatch_effect prompt model_type kwargs log)
      as (o & d & Hd & Hc & Hs & Ha).
    rewrite Hd. destruct o as [v|e].
    + eexists. exists d, 0. repeat split; try assumption; lia.
    + destruct (Z.eqb_spec (Z.of_nat a) (max_retries - 1)) as [E|E].
      * eexists. exists d, 0. unfold raise.
        repeat split; try assumption; lia.
      * unfold bind at 1, time_sleep at 1.
        destruct (IH (S a) ((log ++ d) ++ [Sleep (2 ^ Z.of_nat a)%Z]))
          as (o' & ext & j & Hr & Hc' & Hj & Hs' & Ha'); [right; lia|].
        rewrite Hr.
        eexists. exists (d ++ [Sleep (2 ^ Z.of_nat a)%Z] ++ ext), (S j).
        split; [now rewrite <- !app_assoc|].
        split; [rewrite !calls_app; unfold calls at 2; simpl; lia|].
        split; [lia|].
        split.
        { rewrite !sleeps_app, Hs, Hs'. reflexivity. }
        intros model Hm. unfold calls_are.
        apply Forall_app; split; [now apply Ha|].
        apply Forall_app; split; [|now apply Ha'].
        constructor; [discriminate|constructor].
Qed.

(** The first call that returns, if any, among the first [n] calls. *)
Lemma first_return (f : nat -> outcome Response) (n : nat) :
  (exists k r, k < n
               /\ (forall i, i < k -> exists e, f i = Raise e)
               /\ f k = Return r)
  \/ (forall i, i < n -> exists e, f i = Raise e).
Proof.
  induction n as [|n [(k & r & Hk & Hf & Hr)|Hall]].
  - right. intros i Hi. lia.
  - left. exists k, r. repeat split; [lia|assumption|assumption].
  - destruct (f n) as [r|e] eqn:En.
    + left. exists n, r. repeat split; [lia|assumption|assumption].
    + right. intros i Hi.
      destruct (Nat.eq_dec i n) as [->|Hne]; [now exists e|].
      apply Hall. lia.
Qed.

(** The run in which calls fail and the next one returns. *)
Lemma run_recovers (prompt model_type model : Py.str) (max_retries : Z)
      (kwargs : Options) (k : nat) (response : Response) :
  tier_model settings model_type = Some model ->
  (Z.of_nat k < max_retries)%Z ->
  (forall i, i < k -> exists e, backend i model prompt kwargs = Raise e) ->
  backend k model prompt kwargs = Return response ->
  run (generate_with_retry settings backend prompt model_type
                           max_retries kwargs)
  = (Return (text_or_none response),
     failed_attempts model prompt kwargs 0 k ++ [Call model prompt kwargs]).
Proof.
  intros Htier Hk Hfail Hok.
  unfold run, generate_with_retry. rewrite range_attempts.
  replace (Z.to_nat max_retries)
    with (k + S (Z.to_nat max_retries - S k)) by lia.
  rewrite retry_loop_skips_failures with (model := model);
    [|exact Htier|exact Hfail|lia].
  cbn [attempts_from seq List.map retry_loop app].
  unfold try_except. rewrite dispatch_valid with (model := model)
    by exact Htier.
  rewrite calls_failed_attempts. cbn [Nat.add].
  now rewrite Hok.
Qed.

(** The run in which every permitted call fails. *)
Lemma run_exhausted (prompt model_type model : Py.str) (max_retries : Z)
      (kwargs : Options) (e : exn) :
  tier_model settings model_type = Some model ->
  (1 <= max_retries)%Z ->
  (forall i, i < Z.to_nat max_retries - 1 ->
             exists e', backend i model prompt kwargs = Raise e') ->
  backend (Z.to_nat max_retries - 1) model prompt kwargs = Raise e ->
  run (generate_with_retry settings backend prompt model_type
                           max_retries kwargs)
  = (Raise e,
     failed_attempts model prompt kwargs 0 (Z.to_nat max_retries - 1)
       ++ [Call model prompt kwargs]).
Proof.
  intros Htier Hm Hfail Hlast.
  set (last := Z.to_nat max_retries - 1) in *.
  unfold run, generate_with_retry. rewrite range_attempts.
  replace (Z.to_nat max_retries) with (last + 1) by (subst last; lia).
  rewrite retry_loop_skips_failures with (model := model);
    [|exact Htier|exact Hfail|subst last; lia].
  cbn [attempts_from seq List.map retry_loop app].
  unfold try_except. rewrite dispatch_valid with (model := model)
    by exact Htier.
  rewrite calls_failed_attempts. cbn [Nat.add]. rewrite Hlast.
  replace (Z.of_nat last =? max_retries - 1)%Z with true
    by (symmetry; apply Z.eqb_eq; subst last; lia).
  reflexivity.
Qed.

(** On a recognised tier and with a positive budget a run is one of the
    two above. *)
Lemma run_cases (prompt model_type model : Py.str) (max_retries : Z)
      (kwargs : Options) :
  tier_model settings model_type = Some model ->
  (1 <= max_retries)%Z ->
  let result := run (generate_with_retry settings backend prompt model_type
                                         max_retries kwargs) in
  (exists k response,
      (Z.of_nat k < max_retries)%Z
      /\ (forall i, i < k ->
                    exists e, backend i model prompt kwargs = Raise e)
      /\ backend k model prompt kwargs = Return response
      /\ result = (Return (text_or_none response),
                   failed_attempts model prompt kwargs 0 k
                     ++ [Call model prompt kwargs]))
  \/ (exists e,
         (forall i, i < Z.to_nat max_retries - 1 ->
                    exists e', backend i model prompt kwargs = Raise e')
         /\ backend (Z.to_nat max_retries - 1) model prompt kwargs = Raise e
         /\ result = (Raise e,
                      failed_attempts model prompt kwargs 0
                                      (Z.to_nat max_retries - 1)
                        ++ [Call model prompt kwargs])).
Proof.
  intros Htier Hm result. subst result.
  destruct (first_return (fun i => backend i model prompt kwargs)
                         (Z.to_nat max_retries))
    as [(k & r & Hk & Hf & Hr)|Hall].
  - left. exists k, r. repeat split; [lia|exact Hf|exact Hr|].
    apply run_recovers; [exact Htier|lia|exact Hf|exact Hr].
  - right. destruct (Hall (Z.to_nat max_retries - 1) ltac:(lia)) as [e He].
    exists e. repeat split; [|exact He|].
    + intros i Hi. apply Hall. lia.
    + apply run_exhausted; [exact Htier|exact Hm| |exact He].
      intros i Hi. apply Hall. lia.
Qed.

End RetryFacts.

(** X1: a budget of one attempt makes the retrying call the plain generator
    of the tier: one call, no delay, the same result or error. *)
Theorem single_attempt_is_plain_generate :
  forall (Options : Type) (settings : Settings)
         (backend : nat -> Py.str -> Py.str -> Options -> outcome Response)
         (prompt : Py.str) (kwargs : Options) (log : list (event Options)),
    generate_with_retry settings backend prompt (py "lite") 1 kwargs log
    = generate_with_lite settings backend prompt kwargs log
    /\ generate_with_retry settings backend prompt (py "flash") 1 kwargs log
       = generate_with_flash settings backend prompt kwargs log
    /\ generate_with_retry settings backend prompt (py "pro") 1 kwargs log
       = generate_with_pro settings backend prompt kwargs log.
Proof.
  intros. unfold generate_with_retry.
  change (range 1) with [0%Z]. cbn [retry_loop].
  unfold try_except, dispatch.
  change (Py.eqb (py "lite") (py "lite")) with true.
  change (Py.eqb (py "flash") (py "lite")) with false.
  change (Py.eqb (py "flash") (py "flash")) with true.
  change (Py.eqb (py "pro") (py "lite")) with false.
  change (Py.eqb (py "pro") (py "flash")) with false.
  change (Py.eqb (py "pro") (py "pro")) with true.
  cbv iota.
  repeat split.
  - now destruct (generate_with_lite settings backend prompt kwargs log)
      as [[v|e] l].
  - now destruct (generate_with_flash settings backend prompt kwargs log)
      as [[v|e] l].
  - now destruct (generate_with_pro settings backend prompt kwargs log)
      as [[v|e] l].
Qed.

(** X2: whatever the tier and whatever the hosted model does, a call makes at
    most [max_retries] calls to it (none for a budget below one), and its
    delays are 1, 2, 4, ... in that order, fewer of them than the
    budget. *)
Theorem retry_never_exceeds_budget :
  forall (Options : Type) (settings : Settings)
         (backend : nat -> Py.str -> Py.str -> Options -> outcome Response)
         (prompt model_type : Py.str) (max_retries : Z) (kwargs : Options),
    let log := snd (run (generate_with_retry settings backend prompt
                                             model_type max_retries kwargs)) in
    (Z.of_nat (calls log) <= Z.max 0 max_retries)%Z
    /\ exists j,
        (Z.of_nat j <= Z.max 0 (max_retries - 1))%Z
        /\ sleeps log = List.map (fun i => 2 ^ Z.of_nat i)%Z (seq 0 j).
Proof.
  intros Options settings backend prompt model_type max_retries kwargs log.
  subst log. unfold run, generate_with_retry. rewrite range_attempts.
  destruct (@retry_loop_effect Options settings backend prompt model_type
              max_retries kwargs (Z.to_nat max_retries) 0 [])
    as (o & ext & j & Hr & Hc & Hj & Hs & _); [lia|].
  rewrite Hr. cbn [snd app]. split; [lia|].
  exists j. split; [lia|exact Hs].
Qed.

(** X3: the time a call spends sleeping is below [2^(max_retries - 1)] time
    units, whatever the tier and whatever the hosted model does. *)
Theorem retry_total_delay_bound :
  forall (Options : Type) (settings : Settings)
         (backend : nat -> Py.str -> Py.str -> Options -> outcome Response)
         (prompt model_type : Py.str) (max_retries : Z) (kwargs : Options),
    (total_delay (snd (run (generate_with_retry settings backend prompt
                              model_type max_retries kwargs)))
     <= 2 ^ Z.max 0 (max_retries - 1) - 1)%Z.
Proof.
  intros Options settings backend prompt model_type max_retries kwargs.
  unfold run, generate_with_retry. rewrite range_attempts.
  destruct (@retry_loop_effect Options settings backend prompt model_type
              max_retries kwargs (Z.to_nat max_retries) 0 [])
    as (o & ext & j & Hr & Hc & Hj & Hs & _); [lia|].
  rewrite Hr. cbn [snd app]. unfold total_delay. rewrite Hs, sum_backoff.
  cbn [Nat.add Z.of_nat]. rewrite Z.pow_0_r.
  assert (Z.of_nat j <= Z.max 0 (max_retries - 1))%Z by lia.
  assert (2 ^ Z.of_nat j <= 2 ^ Z.max 0 (max_retries - 1))%Z
    by (apply Z.pow_le_mono_r; lia).
  lia.
Qed.

(** X4: on a recognised tier and with a budget of at least one attempt,
    every attempt calls the hosted model, with the model identifier of the
    tier and with the caller's prompt and options, unchanged from one
    attempt to the next: the log is some number [k] of attempts, each one
    such a call followed by its delay, and a last attempt that is such a
    call again, [k + 1] calls in all and fewer than [max_retries] of them
    followed by a delay. *)
Theorem retry_repeats_the_same_call :
  forall (Options : Type) (settings : Settings)
         (backend : nat -> Py.str -> Py.str -> Options -> outcome Response)
         (prompt model_type model : Py.str) (max_retries : Z)
         (kwargs : Options),
    tier_model settings model_type = Some model ->
    (1 <= max_retries)%Z ->
    let log := snd (run (generate_with_retry settings backend prompt
                                             model_type max_retries kwargs)) in
    exists k,
      (Z.of_nat k < max_retries)%Z
      /\ log = flat_map
                 (fun i => [Call model prompt kwargs;
                            Sleep (2 ^ Z.of_nat i)%Z])
                 (seq 0 k)
               ++ [Call model prompt kwargs]
      /\ calls log = k + 1.
Proof.
  intros Options settings backend prompt model_type model max_retries kwargs
         Htier Hm log. subst log.
  destruct (@run_cases Options settings backend prompt model_type model
                       max_retries kwargs Htier Hm)
    as [(k & r & Hk & _ & _ & ->)|(e & _ & _ & ->)]; cbn [snd].
  - exists k. repeat split; [exact Hk|].
    rewrite calls_app, calls_failed_attempts. reflexivity.
  - exists (Z.to_nat max_retries - 1). repeat split; [lia|].
    rewrite calls_app, calls_failed_attempts. reflexivity.
Qed.

(** X5: on an unrecognised tier and with a budget of at least one attempt the
    hosted model is never called: the call sleeps 1, 2, ...,
    [2^(max_retries - 2)] time units and then raises the [ValueError] that
    names the tier. *)
Theorem invalid_tier_never_calls_backend :
  forall (Options : Type) (settings : Settings)
         (backend : nat -> Py.str -> Py.str -> Options -> outcome Response)
         (prompt model_type : Py.str) (max_retries : Z) (kwargs : Options),
    tier_model settings model_type = None ->
    (1 <= max_retries)%Z ->
    let result := run (generate_with_retry settings backend prompt model_type
                                           max_retries kwargs) in
    fst result = Raise (ValueError (py "Invalid model_type: " ++ model_type))
    /\ calls (snd result) = 0
    /\ sleeps (snd result)
       = List.map (fun i => 2 ^ Z.of_nat i)%Z
                  (seq 0 (Z.to_nat max_retries - 1)).
Proof.
  intros Options settings backend prompt model_type max_retries kwargs Ht Hm
         result.
  subst result. unfold run, generate_with_retry. rewrite range_attempts.
  replace (Z.to_nat max_retries) with (S (Z.to_nat max_retries - 1)) at 1 2 3
    by lia.
  rewrite retry_loop_invalid by (exact Ht || lia).
  cbn [fst snd app]. rewrite calls_delays, sleeps_delays.
  repeat split.
Qed.

(** X6: on a recognised tier and with a budget of at least one attempt
    nothing is made up and nothing is swallowed: a value that is returned
    is the value of the first response the hosted model returned, all
    calls before it having failed, and an error that is raised is the
    error of the last permitted call, all calls before it having failed
    too. *)
Theorem retry_outcome_comes_from_backend :
  forall (Options : Type) (settings : Settings)
         (backend : nat -> Py.str -> Py.str -> Options -> outcome Response)
         (prompt model_type model : Py.str) (max_retries : Z)
         (kwargs : Options),
    tier_model settings model_type = Some model ->
    (1 <= max_retries)%Z ->
    let outcome_of := fst (run (generate_with_retry settings backend prompt
                                  model_type max_retries kwargs)) in
    (forall v, outcome_of = Return v ->
       exists k response,
         (Z.of_nat k < max_retries)%Z
         /\ (forall i, i < k ->
                       exists e, backend i model prompt kwargs = Raise e)
         /\ backend k model prompt kwargs = Return response
         /\ v = (if truthy response then Some (text response) else None))
    /\ (forall e, outcome_of = Raise e ->
          forall i, (Z.of_nat i < max_retries)%Z ->
            exists e', backend i model prompt kwargs = Raise e'
                       /\ (Z.of_nat i = max_retries - 1 -> e' = e)%Z).
Proof.
  intros Options settings backend prompt model_type model max_retries kwargs
         Htier Hm outcome_of. subst outcome_of.
  destruct (@run_cases Options settings backend prompt model_type model max_retries kwargs
                      Htier Hm)
    as [(k & r & Hk & Hf & Hr & ->)|(e & Hf & He & ->)]; cbn [fst].
  - split; [|discriminate].
    intros v [= <-]. exists k, r. repeat split; assumption.
  - split; [discriminate|].
    intros e0 [= <-] i Hi.
    destruct (Nat.eq_dec i (Z.to_nat max_retries - 1)) as [->|Hne].
    + exists e. split; [exact He|reflexivity].
    + destruct (Hf i ltac:(lia)) as [e' He']. exists e'.
      split; [exact He'|lia].
Qed.

(** X7: a call that returns a value returns the same value, after the same
    calls and delays, under any larger budget. *)
Theorem larger_budget_keeps_success :
  forall (Options : Type) (settings : Settings)
         (backend : nat -> Py.str -> Py.str -> Options -> outcome Response)
         (prompt model_type : Py.str) (max_retries more_retries : Z)
         (kwargs : Options) (v : option Py.str) (log : list (event Options)),
    (max_retries <= more_retries)%Z ->
    run (generate_with_retry settings backend prompt model_type
                             max_retries kwargs) = (Return v, log) ->
    run (generate_with_retry settings backend prompt model_type
                             more_retries kwargs) = (Return v, log).
Proof.
  intros Options settings backend prompt model_type max_retries more_retries
         kwargs v log Hle Hrun.
  destruct (Z.le_gt_cases max_retries 0) as [Hz|Hpos].
  { exfalso. revert Hrun. unfold run, generate_with_retry, range.
    replace (Z.to_nat max_retries) with 0 by lia. discriminate. }
  destruct (tier_model settings model_type) as [model|] eqn:Htier.
  - destruct (@run_cases Options settings backend prompt model_type model max_retries kwargs
                        Htier ltac:(lia))
      as [(k & r & Hk & Hf & Hr & E)|(e & _ & _ & E)];
      rewrite E in Hrun; [|discriminate].
    injection Hrun as <- <-.
    apply run_recovers; [exact Htier|lia|exact Hf|exact Hr].
  - exfalso. revert Hrun.
    rewrite generate_with_retry_invalid_tier by (exact Htier || lia).
    discriminate.
Qed.

(* ===================================================================== *)
(** * More on the extractor *)
(* ===================================================================== *)

Section MoreStripFacts.

Lemma lstrip_all_space (s : Py.str) :
  all_space s = true -> Py.lstrip s = [].
Proof.
  intro H. rewrite <- (app_nil_r s). now rewrite lstrip_space.
Qed.

Lemma lstrip_app_solid (t w : Py.str) :
  all_space t = false -> Py.lstrip (t ++ w) = Py.lstrip t ++ w.
Proof.
  induction t as [|c t IH]; [discriminate|].
  cbn [all_space forallb app Py.lstrip].
  destruct (Py.isspace c); [exact IH|reflexivity].
Qed.

(** Whitespace around a text does not survive [strip]. *)
Lemma strip_pad (ws1 ws2 t : Py.str) :
  all_space ws1 = true -> all_space ws2 = true ->
  Py.strip (ws1 ++ t ++ ws2) = Py.strip t.
Proof.
  intros H1 H2. unfold Py.strip. rewrite lstrip_space by exact H1.
  destruct (all_space t) eqn:E.
  - rewrite !lstrip_all_space; [reflexivity|exact E|].
    now rewrite all_space_app, E, H2.
  - rewrite lstrip_app_solid by exact E. now apply rstrip_space.
Qed.

Lemma startswith_prefix_false (s p q : Py.str) :
  Py.startswith s p = false -> Py.startswith s (p ++ q) = false.
Proof.
  revert s. induction p as [|a p IH]; intros s H; [discriminate|].
  destruct s as [|b s]; [reflexivity|].
  cbn [app Py.startswith] in *.
  destruct (a =? b)%N; [now apply IH|reflexivity].
Qed.

Lemma startswith_app_same (p s q : Py.str) :
  Py.startswith (p ++ s) (p ++ q) = Py.startswith s q.
Proof.
  induction p as [|a p IH]; [reflexivity|].
  cbn [app Py.startswith]. now rewrite N.eqb_refl.
Qed.

Lemma endswith_brace (x : Py.str) :
  Py.endswith (x ++ [125%N]) (py "```") = false.
Proof. unfold Py.endswith. now rewrite rev_app_distr. Qed.

(** [unfence] on a text that strips to an optional opening fence, an
    inner part and an optional closing fence, when the inner part cannot
    be mistaken for a fence. *)
Lemma unfence_core (t opening closing inner : Py.str) :
  Py.strip t = opening ++ inner ++ closing ->
  is_opening opening -> is_closing closing ->
  (opening = py "```" ->
   Py.startswith (inner ++ closing) (py "json") = false) ->
  (opening = [] -> Py.startswith (inner ++ closing) (py "```") = false) ->
  (closing = [] -> Py.endswith inner (py "```") = false) ->
  unfence t = Py.strip inner.
Proof.
  intros Hs Ho Hc Hjson Hnone Hend. unfold unfence. rewrite Hs.
  assert (Hcut :
    (if Py.endswith (inner ++ closing) (py "```")
     then Py.slice_to_neg 3 (inner ++ closing) else inner ++ closing)
    = inner).
  { destruct Hc as [-> | ->].
    - rewrite app_nil_r. now rewrite Hend.
    - rewrite endswith_app. apply (slice_to_neg_app (py "```")). }
  destruct Ho as [-> | [-> | ->]].
  - cbn [app]. specialize (Hnone eq_refl).
    change (py "```json") with (py "```" ++ py "json").
    rewrite (@startswith_prefix_false _ (py "```") (py "json") Hnone), Hnone.
    now rewrite Hcut.
  - rewrite startswith_app.
    change (Py.slice_from 7 (py "```json" ++ inner ++ closing))
      with (inner ++ closing).
    now rewrite Hcut.
  - change (py "```json") with (py "```" ++ py "json").
    rewrite startswith_app_same, (Hjson eq_refl), startswith_app.
    change (Py.slice_from 3 (py "```" ++ inner ++ closing))
      with (inner ++ closing).
    now rewrite Hcut.
Qed.

(** A text from an opening to a closing brace between optional fences
    comes out of [unfence]. *)
Lemma unfence_optional_fences
      (opening closing lead gap1 gap2 trail body : Py.str) :
  is_opening opening -> is_closing closing ->
  all_space lead = true -> all_space gap1 = true ->
  all_space gap2 = true -> all_space trail = true ->
  Py.startswith body (py "{") = true ->
  Py.endswith body (py "}") = true ->
  unfence (lead ++ opening ++ gap1 ++ body ++ gap2 ++ closing ++ trail)
  = body.
Proof.
  intros Ho Hc Hl Hg1 Hg2 Ht Hs He.
  destruct (@startswith_endswith_inv body 123%N 125%N Hs He
              ltac:(discriminate)) as [mid ->].
  set (body := 123%N :: mid ++ [125%N]).
  assert (Hbody : forall w1 w2, all_space w1 = true -> all_space w2 = true ->
                                Py.strip (w1 ++ body ++ w2) = body).
  { intros w1 w2 H1 H2.
    apply strip_core with (a := 123%N) (t := mid ++ [125%N])
                          (t' := 123%N :: mid) (b := 125%N); auto. }
  set (X := opening ++ gap1 ++ body ++ gap2 ++ closing).
  assert (Htext : lead ++ opening ++ gap1 ++ body ++ gap2 ++ closing ++ trail
                  = lead ++ X ++ trail)
    by (subst X; now rewrite <- !app_assoc).
  assert (Hstrip : Py.strip (lead ++ X ++ trail) = Py.strip X)
    by now apply strip_pad.
  assert (Hjson : forall rest,
             Py.startswith (gap1 ++ body ++ rest) (py "json") = false).
  { intro rest. destruct gap1 as [|g gap1]; [reflexivity|].
    simpl in Hg1. apply andb_prop in Hg1 as [Hg _].
    assert (E : (106 =? g)%N = false)
      by (destruct (N.eqb_spec 106 g) as [<-|]; [discriminate|reflexivity]).
    cbn -[N.eqb]. now rewrite E. }
  assert (Hbody0 : Py.strip body = body).
  { specialize (Hbody [] [] eq_refl eq_refl). cbn [app] in Hbody.
    now rewrite app_nil_r in Hbody. }
  assert (Hbrace : forall pre, Py.endswith (pre ++ body) (py "```") = false).
  { intro pre. subst body.
    change (pre ++ 123%N :: mid ++ [125%N])
      with (pre ++ (123%N :: mid) ++ [125%N]).
    rewrite app_assoc. apply endswith_brace. }
  rewrite Htext.
  destruct Ho as [Eo | Ho]; destruct Hc as [Ec | Ec].
  - (* no fence at all *)
    subst opening closing.
    rewrite <- Hbody0 at 1.
    apply unfence_core with (opening := []) (closing := []).
    + rewrite Hstrip. subst X.
      replace ([] ++ gap1 ++ body ++ gap2 ++ [])
        with (gap1 ++ body ++ gap2)
        by (cbn [app]; now rewrite app_nil_r).
      replace ([] ++ body ++ []) with body
        by (cbn [app]; now rewrite app_nil_r).
      now apply Hbody.
    + now left.
    + now left.
    + discriminate.
    + reflexivity.
    + intros _. apply (Hbrace []).
  - (* a closing fence only *)
    subst opening closing.
    replace body with (Py.strip (body ++ gap2)) at 1
      by (rewrite <- (app_nil_l (body ++ gap2)); now apply Hbody).
    apply unfence_core with (opening := []) (closing := py "```").
    + rewrite Hstrip. subst X.
      replace ([] ++ gap1 ++ body ++ gap2 ++ py "```")
        with (gap1 ++ (body ++ gap2 ++ py "```") ++ [])
        by (cbn [app]; now rewrite app_nil_r).
      replace ([] ++ (body ++ gap2) ++ py "```")
        with (body ++ gap2 ++ py "```")
        by (cbn [app]; now rewrite <- app_assoc).
      apply strip_core with (a := 123%N) (b := 96%N)
        (t := (mid ++ [125%N]) ++ gap2 ++ py "```")
        (t' := (body ++ gap2) ++ py "``"); auto.
      now rewrite <- !app_assoc.
    + now left.
    + now right.
    + discriminate.
    + reflexivity.
    + discriminate.
  - (* an opening fence only *)
    subst closing.
    replace body with (Py.strip (gap1 ++ body)) at 1
      by (rewrite <- (app_nil_r (gap1 ++ body)), <- app_assoc;
          now apply Hbody).
    apply unfence_core with (opening := opening) (closing := []).
    + rewrite Hstrip. subst X.
      replace (opening ++ gap1 ++ body ++ gap2 ++ [])
        with ([] ++ (opening ++ gap1 ++ body) ++ gap2)
        by (cbn [app]; now rewrite app_nil_r, <- !app_assoc).
      replace (opening ++ (gap1 ++ body) ++ [])
        with (opening ++ gap1 ++ body)
        by now rewrite app_nil_r.
      destruct Ho as [-> | ->].
      * apply strip_core with (a := 96%N) (b := 125%N)
          (t := py "``json" ++ gap1 ++ body)
          (t' := py "```json" ++ gap1 ++ 123%N :: mid); auto.
        subst body. now rewrite <- !app_assoc.
      * apply strip_core with (a := 96%N) (b := 125%N)
          (t := py "``" ++ gap1 ++ body)
          (t' := py "```" ++ gap1 ++ 123%N :: mid); auto.
        subst body. now rewrite <- !app_assoc.
    + right. exact Ho.
    + now left.
    + intros _. rewrite <- app_assoc. apply Hjson.
    + intros ->. destruct Ho; discriminate.
    + intros _. apply Hbrace.
  - (* both fences *)
    subst X closing.
    rewrite <- Htext.
    apply unfence_fenced; auto.
Qed.

End MoreStripFacts.

Section ProseFacts.

Lemma match_dotstar_rbrace_lacks (s : Py.str) :
  lacks Re.rbrace s = true -> Re.match_dotstar_rbrace s = None.
Proof.
  induction s as [|c s IH]; [reflexivity|].
  cbn [lacks forallb Re.match_dotstar_rbrace]. intro H.
  apply andb_prop in H as [Hc Hs]. rewrite (IH Hs).
  now apply negb_true_iff in Hc as ->.
Qed.

Lemma match_dotstar_rbrace_span (mid tail : Py.str) :
  lacks Re.rbrace tail = true ->
  Re.match_dotstar_rbrace (mid ++ [Re.rbrace] ++ tail)
  = Some (mid ++ [Re.rbrace]).
Proof.
  intro H. induction mid as [|c mid IH].
  - cbn [app Re.match_dotstar_rbrace].
    rewrite (match_dotstar_rbrace_lacks _ H). now rewrite N.eqb_refl.
  - cbn [app Re.match_dotstar_rbrace]. cbn [app] in IH. now rewrite IH.
Qed.

(** The match of the pattern in an object with brace-free text around
    it is the object. *)
Lemma search_in_prose (before mid after_ : Py.str) :
  lacks Re.lbrace before = true -> lacks Re.rbrace after_ = true ->
  Re.search (before ++ (Re.lbrace :: mid ++ [Re.rbrace]) ++ after_)
  = Some (Re.lbrace :: mid ++ [Re.rbrace]).
Proof.
  intros Hb Ha. induction before as [|c before IH].
  - cbn [app Re.search]. rewrite N.eqb_refl.
    rewrite <- app_assoc. now rewrite match_dotstar_rbrace_span.
  - cbn [lacks forallb] in Hb. apply andb_prop in Hb as [Hc Hb].
    cbn [app Re.search]. apply negb_true_iff in Hc as ->.
    now apply IH.
Qed.

End ProseFacts.

Section MoreExtractorFacts.

Variable lim : JSON.limits.

(** The extractor on a non-empty text, by the outcome of the strict
    parse. *)
Lemma parse_nonempty (t : Py.str) :
  t <> [] ->
  parse_json_response lim (Some t) =
    match JSON.loads lim (unfence t) with
    | Return v => Return v
    | Raise JSONDecodeError =>
        match widest_brace_span (unfence t) with
        | Some span => JSON.loads lim span
        | None =>
            Raise (ValueError (py "Could not parse JSON from Gemini response"))
        end
    | Raise e => Raise e
    end.
Proof.
  intro Hne. unfold parse_json_response.
  rewrite falsy_nonempty by exact Hne.
  now rewrite search_widest_brace_span.
Qed.





End MoreExtractorFacts.

(** X8: whitespace before and after a non-empty text never changes what the
    extractor makes of it. *)
Theorem extractor_ignores_padding :
  forall (lim : JSON.limits) (lead trail t : Py.str),
    t <> [] ->
    all_space lead = true -> all_space trail = true ->
    parse_json_response lim (Some (lead ++ t ++ trail))
    = parse_json_response lim (Some t).
Proof.
  intros lim lead trail t Hne Hl Ht.
  assert (Hne' : lead ++ t ++ trail <> []).
  { destruct t; [congruence|]. destruct lead; discriminate. }
  rewrite !parse_nonempty by assumption.
  unfold unfence. now rewrite strip_pad.
Qed.


(** X11: a value that is not a mapping can only come from the strict parse of
    the whole unfenced text: whatever the fallback returns is a dict. *)
Theorem non_dict_only_from_strict_parse :
  forall (lim : JSON.limits) (t : Py.str) (v : JSON.value),
    parse_json_response lim (Some t) = Return v ->
    JSON.is_dict v = false ->
    JSON.loads lim (unfence t) = Return v.
Proof.
  intros lim t v H Hd.
  destruct t as [|c t]; [discriminate|].
  rewrite parse_nonempty in H by discriminate.
  destruct (JSON.loads lim (unfence (c :: t))) as [v'|e]; [exact H|exfalso].
  destruct e; try discriminate.
  destruct (widest_brace_span (unfence (c :: t))) as [span|] eqn:Es;
    [|discriminate].
  apply widest_brace_span_head in Es as [rest ->].
  apply JSONFacts.loads_brace_dict in H. congruence.
Qed.

(** X12: the fences are optional and independent of each other: a text that
    the decoder reads as an object and that runs from an opening to a
    closing brace is extracted as that object with or without an opening
    fence of either style, with or without a closing fence, and with any
    whitespace before, after and between. *)
Theorem optional_fences_round_trip :
  forall (lim : JSON.limits) (obj : list (Py.str * JSON.value))
         (s opening closing lead gap1 gap2 trail : Py.str),
    JSON.loads lim s = Return (JSON.JDict obj) ->
    Py.startswith s (py "{") = true ->
    Py.endswith s (py "}") = true ->
    is_opening opening -> is_closing closing ->
    all_space lead = true -> all_space gap1 = true ->
    all_space gap2 = true -> all_space trail = true ->
    parse_json_response lim
      (Some (lead ++ opening ++ gap1 ++ s ++ gap2 ++ closing ++ trail))
    = Return (JSON.JDict obj).
Proof.
  intros lim obj s opening closing lead gap1 gap2 trail Hloads Hs He Ho Hc
         Hl Hg1 Hg2 Ht.
  apply strict_parse_returned.
  - destruct s as [|c s]; [discriminate|].
    destruct lead, opening, gap1; discriminate.
  - now rewrite unfence_optional_fences.
Qed.

(** X13: an object with text around it that holds no brace: when the unfenced
    text is brace-free text, then a text from an opening to a closing
    brace, then brace-free text, and its strict parse fails with a decode
    error, the result of the extractor is the decoding of the braced
    part. *)
Theorem object_in_brace_free_prose :
  forall (lim : JSON.limits) (response_text before s after_ : Py.str),
    response_text <> [] ->
    unfence response_text = before ++ s ++ after_ ->
    lacks Re.lbrace before = true ->
    lacks Re.rbrace after_ = true ->
    Py.startswith s (py "{") = true ->
    Py.endswith s (py "}") = true ->
    JSON.loads lim (unfence response_text) = Raise JSONDecodeError ->
    parse_json_response lim (Some response_text) = JSON.loads lim s.
Proof.
  intros lim response_text before s after_ Hne Hu Hb Ha Hs He Hl.
  destruct (@startswith_endswith_inv s 123%N 125%N Hs He
              ltac:(discriminate)) as [mid ->].
  rewrite (@parse_nonempty lim response_text Hne), Hl.
  rewrite <- search_widest_brace_span, Hu.
  replace (Re.search (before ++ (123%N :: mid ++ [125%N]) ++ after_))
    with (Some (123%N :: mid ++ [125%N])); [reflexivity|symmetry].
  exact (@search_in_prose before mid after_ Hb Ha).
Qed.

(* ===================================================================== *)
(** * The further theorems at sample inputs *)
(* ===================================================================== *)

(** Two failures and an answer on the balanced tier. *)
Lemma retry_repeats_the_same_call_witness :
  let call := Call (py "gemini-2.0-flash") (py "Hi") tt in
  let log := snd (run (generate_with_retry sample_settings (flaky 2)
                         (py "Hi") (py "flash") 3 tt)) in
  exists k,
    (Z.of_nat k < 3)%Z
    /\ log = flat_map (fun i => [call; Sleep (2 ^ Z.of_nat i)%Z]) (seq 0 k)
             ++ [call]
    /\ calls log = k + 1.
Proof.
  apply (@retry_repeats_the_same_call unit sample_settings (flaky 2)
           (py "Hi") (py "flash") (py "gemini-2.0-flash") 3%Z tt).
  - reflexivity.
  - lia.
Defined.

(** The tier [turbo] with a budget of four. *)
Lemma invalid_tier_never_calls_backend_witness :
  let result := run (generate_with_retry sample_settings down (py "Hi")
                                         (py "turbo") 4 tt) in
  fst result = Raise (ValueError (py "Invalid model_type: turbo"))
  /\ calls (snd result) = 0
  /\ sleeps (snd result) = [1; 2; 4]%Z.
Proof.
  apply (@invalid_tier_never_calls_backend unit sample_settings down
           (py "Hi") (py "turbo") 4%Z tt).
  - reflexivity.
  - lia.
Defined.

(** One failure and an answer on the cheap tier, within a budget of
    two. *)
Lemma retry_outcome_comes_from_backend_witness :
  let outcome_of := fst (run (generate_with_retry sample_settings (flaky 1)
                                (py "Hi") (py "lite") 2 tt)) in
  (forall v, outcome_of = Return v ->
     exists k response,
       (Z.of_nat k < 2)%Z
       /\ (forall i, i < k ->
             exists e, flaky 1 i (py "gemini-2.0-flash-lite") (py "Hi") tt
                       = Raise e)
       /\ flaky 1 k (py "gemini-2.0-flash-lite") (py "Hi") tt
          = Return response
       /\ v = (if truthy response then Some (text response) else None))
  /\ (forall e, outcome_of = Raise e ->
        forall i, (Z.of_nat i < 2)%Z ->
          exists e', flaky 1 i (py "gemini-2.0-flash-lite") (py "Hi") tt
                     = Raise e'
                     /\ (Z.of_nat i = 2 - 1 -> e' = e)%Z).
Proof.
  apply (@retry_outcome_comes_from_backend unit sample_settings (flaky 1)
           (py "Hi") (py "lite") (py "gemini-2.0-flash-lite") 2%Z tt).
  - reflexivity.
  - lia.
Defined.

(** What a budget of three returns, a budget of ten returns too. *)
Lemma larger_budget_keeps_success_witness :
  let call := Call (py "gemini-2.0-flash") (py "Hi") tt in
  run (generate_with_retry sample_settings (flaky 2) (py "Hi") (py "flash")
                           10 tt)
  = (Return (Some (py " done ")), [call; Sleep 1; call; Sleep 2; call]).
Proof.
  apply (@larger_budget_keeps_success unit sample_settings (flaky 2)
           (py "Hi") (py "flash") 3%Z 10%Z tt).
  - lia.
  - reflexivity.
Defined.

(** An object with spaces before and a newline after. *)
Lemma extractor_ignores_padding_witness :
  parse_json_response JSON.default_limits
    (Some (py "  " ++ pyq "{'a': 1}" ++ [10%N]))
  = parse_json_response JSON.default_limits (Some (pyq "{'a': 1}")).
Proof.
  apply (@extractor_ignores_padding JSON.default_limits (py "  ") [10%N]
           (pyq "{'a': 1}")).
  - discriminate.
  - reflexivity.
  - reflexivity.
Defined.

(** A JSON array is returned by the strict parse. *)
Lemma non_dict_only_from_strict_parse_witness :
  JSON.loads JSON.default_limits (unfence (py "[1, 2]"))
  = Return (JSON.JList [JSON.JInt 1; JSON.JInt 2]).
Proof.
  apply (@non_dict_only_from_strict_parse JSON.default_limits (py "[1, 2]")
           (JSON.JList [JSON.JInt 1; JSON.JInt 2])).
  - reflexivity.
  - reflexivity.
Defined.

(** A labelled opening fence whose closing fence is missing. *)
Lemma optional_fences_round_trip_witness :
  parse_json_response JSON.default_limits
    (Some ([10%N] ++ py "```json" ++ [10%N] ++ pyq "{'a': 1}"
              ++ [10%N] ++ [] ++ [32%N]))
  = Return (JSON.JDict [(py "a", JSON.JInt 1)]).
Proof.
  apply (@optional_fences_round_trip JSON.default_limits
           [(py "a", JSON.JInt 1)]
           (pyq "{'a': 1}") (py "```json") [] [10%N] [10%N] [10%N] [32%N]);
    try reflexivity.
  - right. left. reflexivity.
  - left. reflexivity.
Defined.

(** The example of the specification, split at its braces. *)
Lemma object_in_brace_free_prose_witness :
  parse_json_response JSON.default_limits (Some prose_example)
  = JSON.loads JSON.default_limits (pyq "{'ok': true}").
Proof.
  apply (@object_in_brace_free_prose JSON.default_limits prose_example
           (py "Here is your answer: ") (pyq "{'ok': true}")
           ([32%N; 8212%N] ++ py " hope that helps"));
    try reflexivity.
  discriminate.
Defined.
